(** * Sales analytics: anomaly detection, restock patterns and demand forecast

    A shallow embedding of the analytical code of [recommendations.py] and
    [salesforcast.py], with the properties of its specification.

    Numbers.  Identifiers and quantities are integers ([Z]).  The float64
    values the programs compute (means, standard deviations, thresholds,
    z-scores, regression lines) are kept exact: a mean is a rational, a
    standard deviation is the square root of a rational and is kept as its
    radicand, and every comparison the code makes on them is decided by
    rational arithmetic.  The lemmas of the section "Denotation" relate
    these decisions to the real numbers they stand for.  NaN is [None].

    Time.  [sold_at] is the instant of the sale in seconds since the Unix
    epoch, that is the column after [pd.to_datetime(..., utc=True)].  The
    wall clock is a function [now : nat -> Z]: the k-th call of
    [datetime.now(timezone.utc)] of a run returns [now k].

    Record store.  The tables are read through [Db].  The bulk inserts are
    not part of the model: each function inserts the list it returns. *)

From Stdlib Require Import ZArith List Bool Lia String Ascii.
From Stdlib Require Import QArith Qround Qreals Lqa Reals Lra Permutation Sorted.
From Stdlib Require Import DecimalString.
Import ListNotations.

Local Open Scope Z_scope.

(** ** Python values and exceptions *)

Inductive exn : Type :=
| KeyError (key : string)
| ValueError (msg : string)
| Exception (msg : string).

(** [str(e)] *)
Definition exn_str (e : exn) : string :=
  match e with
  | KeyError k => ("'" ++ k ++ "'")%string
  | ValueError m => m
  | Exception m => m
  end.

Inductive result (A : Type) : Type :=
| Ok (a : A)
| Raise (e : exn).
Arguments Ok {A} a.
Arguments Raise {A} e.

Definition bind {A B : Type} (m : result A) (k : A -> result B) : result B :=
  match m with
  | Ok a => k a
  | Raise e => Raise e
  end.

Notation "x <- m ;; k" := (bind m (fun x => k))
  (at level 61, m at next level, right associativity).

(** [str(n)] for an integer. *)
Definition str_Z (z : Z) : string := NilZero.string_of_int (Z.to_int z).

(** ** The data model *)

(** A row of [dynamic_sales]. *)
Record SaleRecord : Type := mkSale {
  dynamic_product_id : Z;
  store_id : Z;
  quantity : Z;
  sold_at : Z
}.

(** A row of [monthly_sales]: the group key and the summed quantity. *)
Record MonthlyBucket : Type := mkBucket {
  b_product_id : Z;
  b_store_id : Z;
  b_month : string;
  b_quantity : Z
}.

Definition key : Type := (Z * Z * string)%type.

Definition key_eqb (k1 k2 : key) : bool :=
  let '(p1, s1, m1) := k1 in
  let '(p2, s2, m2) := k2 in
  (p1 =? p2) && (s1 =? s2) && String.eqb m1 m2.

(** Lexicographic order of the group keys, the order [groupby] sorts in. *)
Definition key_leb (k1 k2 : key) : bool :=
  let '(p1, s1, m1) := k1 in
  let '(p2, s2, m2) := k2 in
  if p1 <? p2 then true
  else if p2 <? p1 then false
  else if s1 <? s2 then true
  else if s2 <? s1 then false
  else String.leb m1 m2.

Definition pair_eqb (a b : Z * Z) : bool :=
  (fst a =? fst b) && (snd a =? snd b).

Definition bucket_key (b : MonthlyBucket) : key :=
  (b_product_id b, b_store_id b, b_month b).

Definition bucket_pair (b : MonthlyBucket) : Z * Z :=
  (b_product_id b, b_store_id b).

Definition sale_pair (r : SaleRecord) : Z * Z :=
  (dynamic_product_id r, store_id r).

(** ** Calendar: [.dt.to_period("M").astype(str)] and [strftime("%Y-%m")] *)

Module Calendar.

(** Zero-padded decimal of a non-negative number, at least [width] digits. *)
Fixpoint pad (width : nat) (s : string) : string :=
  match width with
  | O => s
  | S w => if (String.length s <? S w)%nat then pad w ("0" ++ s)%string else s
  end.

Definition zfill (width : nat) (z : Z) : string := pad width (str_Z z).

(** Year and month of the proleptic Gregorian calendar of a day number
    (days since 1970-01-01). *)
Definition civil_of_days (days : Z) : Z * Z :=
  let z := days + 719468 in
  let era := z / 146097 in
  let doe := z - era * 146097 in
  let yoe := (doe - doe / 1460 + doe / 36524 - doe / 146096) / 365 in
  let y := yoe + era * 400 in
  let doy := doe - (365 * yoe + yoe / 4 - yoe / 100) in
  let mp := (5 * doy + 2) / 153 in
  let m := if mp <? 10 then mp + 3 else mp - 9 in
  (if m <=? 2 then y + 1 else y, m).

(** The month label of an instant, ["YYYY-MM"], in UTC. *)
Definition month_label (t : Z) : string :=
  let '(y, m) := civil_of_days (t / 86400) in
  (zfill 4 y ++ "-" ++ zfill 2 m)%string.

End Calendar.

Definition sale_month (r : SaleRecord) : string := Calendar.month_label (sold_at r).

Definition sale_key (r : SaleRecord) : key :=
  (dynamic_product_id r, store_id r, sale_month r).

(** ** Data-frame operations *)

Module Frame.

Section DropDuplicates.
Context {A : Type} (eqb : A -> A -> bool).

Definition mem (x : A) (l : list A) : bool := existsb (eqb x) l.

(** [drop_duplicates()]: the first occurrence of every value, in order. *)
Definition drop_duplicates (l : list A) : list A :=
  fold_left (fun seen x => if mem x seen then seen else seen ++ [x]) l [].
End DropDuplicates.

(** One step of the grouped sum: add [q] to the group of [k], opening the
    group when [k] is new. *)
Fixpoint accumulate (k : key) (q : Z) (groups : list (key * Z)) : list (key * Z) :=
  match groups with
  | [] => [(k, q)]
  | (k', v) :: rest =>
      if key_eqb k k' then (k', v + q) :: rest
      else (k', v) :: accumulate k q rest
  end.

Section Sort.
Context {A : Type} (leb : A -> A -> bool).

Fixpoint insert (x : A) (l : list A) : list A :=
  match l with
  | [] => [x]
  | y :: t => if leb x y then x :: l else y :: insert x t
  end.

Definition sort (l : list A) : list A := fold_right insert [] l.
End Sort.

Definition bucket_of (g : key * Z) : MonthlyBucket :=
  let '((p, s, m), v) := g in mkBucket p s m v.

(** [sales_df.groupby(["dynamic_product_id", "store_id", "month"])
    ["quantity"].sum().reset_index()] *)
Definition groupby_sum (sales : list SaleRecord) : list MonthlyBucket :=
  map bucket_of
    (sort (fun a b => key_leb (fst a) (fst b))
       (fold_left (fun groups r => accumulate (sale_key r) (quantity r) groups)
          sales [])).

(** [df[(df.product == p) & (df.store == s)]] on the monthly frame. *)
Definition rows_of_pair (pr : Z * Z) (monthly : list MonthlyBucket) : list MonthlyBucket :=
  filter (fun b => pair_eqb (bucket_pair b) pr) monthly.

(** The same selection on the raw frame. *)
Definition sales_of_pair (pr : Z * Z) (sales : list SaleRecord) : list SaleRecord :=
  filter (fun r => pair_eqb (sale_pair r) pr) sales.

(** [.sort_values("month")]; the months of the rows of one pair are distinct. *)
Definition sort_by_month (rows : list MonthlyBucket) : list MonthlyBucket :=
  sort (fun a b => String.leb (b_month a) (b_month b)) rows.

Section GroupBy.
Context {K : Type} (eqb leb : K -> K -> bool).

(** One step of a grouped sum on one key column. *)
Fixpoint accumulate_by (k : K) (q : Z) (groups : list (K * Z)) : list (K * Z) :=
  match groups with
  | [] => [(k, q)]
  | (k', v) :: rest =>
      if eqb k k' then (k', v + q) :: rest
      else (k', v) :: accumulate_by k q rest
  end.

(** [sales_df.groupby(column)["quantity"].sum()]: a series indexed by the
    values of the column, in ascending order. *)
Definition groupby_column (column : SaleRecord -> K) (sales : list SaleRecord)
  : list (K * Z) :=
  sort (fun a b => leb (fst a) (fst b))
    (fold_left (fun groups r => accumulate_by (column r) (quantity r) groups) sales []).
End GroupBy.

(** [.nlargest(n)]: the [n] largest values in descending order, equal values
    in the order of the series. *)
Definition nlargest {K : Type} (n : nat) (series : list (K * Z)) : list (K * Z) :=
  firstn n (sort (fun a b => snd b <=? snd a) series).

End Frame.

(** ** Exact arithmetic for the float64 values of the programs *)

Module Num.

Definition sumZ (l : list Z) : Z := fold_right Z.add 0 l.
Definition sumQ (l : list Q) : Q := fold_right Qplus 0%Q l.
Definition count {A : Type} (l : list A) : Z := Z.of_nat (List.length l).

Definition Qleb (a b : Q) : bool := Qle_bool a b.
Definition Qltb (a b : Q) : bool := negb (Qle_bool b a).

(** [np.mean(xs)], [Series.mean()]: NaN on an empty series. *)
Definition mean (xs : list Z) : option Q :=
  match xs with
  | [] => None
  | _ => Some (inject_Z (sumZ xs) / inject_Z (count xs))%Q
  end.

(** The non-negative square root of a rational, kept as its radicand. *)
Record root : Type := Sqrt { radicand : Q }.

(** Standard deviation with [ddof] delta degrees of freedom:
    [np.std(xs)] is [std 0 xs], [Series.std()] is [std 1 xs].
    NaN when the series has no more than [ddof] points. *)
Definition std (ddof : Z) (xs : list Z) : option root :=
  match mean xs with
  | None => None
  | Some m =>
      if count xs - ddof <=? 0 then None
      else Some (Sqrt (sumQ (map (fun x => (inject_Z x - m) * (inject_Z x - m)) xs)
                       / inject_Z (count xs - ddof))%Q)
  end.

(** [a + sqrt v] and [a - sqrt v]. *)
Inductive surd : Type :=
| Plus (a : Q) (r : root)
| Minus (a : Q) (r : root).

(** [mean + std] and [mean - std]; NaN propagates. *)
Definition add_std (m : option Q) (s : option root) : option surd :=
  match m, s with
  | Some a, Some r => Some (Plus a r)
  | _, _ => None
  end.

Definition sub_std (m : option Q) (s : option root) : option surd :=
  match m, s with
  | Some a, Some r => Some (Minus a r)
  | _, _ => None
  end.

(** [q >= t] for an integer [q]; false when [t] is NaN. *)
Definition geb (q : Z) (t : option surd) : bool :=
  match t with
  | None => false
  | Some (Plus a (Sqrt v)) =>
      let d := (inject_Z q - a)%Q in Qleb 0 d && Qleb v (d * d)
  | Some (Minus a (Sqrt v)) =>
      let d := (inject_Z q - a)%Q in Qleb 0 d || Qleb (d * d) v
  end.

(** [q <= t] for an integer [q]; false when [t] is NaN. *)
Definition leb (q : Z) (t : option surd) : bool :=
  match t with
  | None => false
  | Some (Plus a (Sqrt v)) =>
      let d := (inject_Z q - a)%Q in Qleb d 0 || Qleb (d * d) v
  | Some (Minus a (Sqrt v)) =>
      let d := (inject_Z q - a)%Q in Qleb d 0 && Qleb v (d * d)
  end.

(** [std > 0] *)
Definition root_pos (r : root) : bool := Qltb 0 (radicand r).

(** A z-score: the quotient [(q - mean) / std], or the literal [0]. *)
Inductive zscore : Type :=
| ZQuot (num : Q) (den : root)
| ZZero.

(** [abs(z) > 3] *)
Definition abs_gt3 (z : zscore) : bool :=
  match z with
  | ZQuot n (Sqrt v) => Qltb 0 v && Qltb (9 * v) (n * n)
  | ZZero => false
  end.

(** [z > 0] *)
Definition z_pos (z : zscore) : bool :=
  match z with
  | ZQuot n (Sqrt v) => Qltb 0 v && Qltb 0 n
  | ZZero => false
  end.

(** [[(q - mean) / std if std > 0 else 0 for q in quantities]] *)
Definition z_scores (quantities : list Z) : list zscore :=
  map (fun q =>
         match mean quantities, std 0 quantities with
         | Some m, Some s => if root_pos s then ZQuot (inject_Z q - m) s else ZZero
         | _, _ => ZZero
         end) quantities.

(** [[i for i, z in enumerate(z_scores) if abs(z) > 3]] *)
Definition anomaly_indices (zs : list zscore) : list nat :=
  map fst (filter (fun iz => abs_gt3 (snd iz)) (combine (seq 0 (List.length zs)) zs)).

(** [LinearRegression().fit([[0], [1], ...], y)]: slope and intercept of
    the ordinary least-squares line through the points [(i, y_i)]. *)
Definition indices (ys : list Z) : list Z := map Z.of_nat (seq 0 (List.length ys)).

Definition linear_fit (ys : list Z) : Q * Q :=
  let xs := indices ys in
  let n := count ys in
  let sx := sumZ xs in
  let sy := sumZ ys in
  let sxy := sumZ (map (fun p => fst p * snd p) (combine xs ys)) in
  let sxx := sumZ (map (fun x => x * x) xs) in
  let coef := (inject_Z (n * sxy - sx * sy) / inject_Z (n * sxx - sx * sx))%Q in
  let intercept := ((inject_Z sy - coef * inject_Z sx) / inject_Z n)%Q in
  (coef, intercept).

(** [model.predict([[x]])[0]] *)
Definition predict (model : Q * Q) (x : Z) : Q :=
  (snd model + fst model * inject_Z x)%Q.

(** [max(0, x)] *)
Definition max0 (x : Q) : Q := if Qltb 0 x then x else 0%Q.

(** [round(x, 2)], ties to even. *)
Definition round2 (x : Q) : Q :=
  let s := (x * 100)%Q in
  let f := Qfloor s in
  let r := (s - inject_Z f)%Q in
  let n := if Qltb r (1 # 2) then f
           else if Qltb (1 # 2) r then f + 1
           else if Z.even f then f else f + 1 in
  (n # 100)%Q.

End Num.

(** ** Denotation: the real numbers the exact values stand for *)

Module Den.

Definition rootR (r : Num.root) : R := sqrt (Q2R (Num.radicand r)).

Definition surdR (s : Num.surd) : R :=
  match s with
  | Num.Plus a r => (Q2R a + rootR r)%R
  | Num.Minus a r => (Q2R a - rootR r)%R
  end.

Definition sumR (l : list R) : R := fold_right Rplus 0%R l.

(** The statistics in the words of the specification. *)
Definition meanR (xs : list Z) : R :=
  (IZR (Num.sumZ xs) / IZR (Num.count xs))%R.

Definition sq_dev (xs : list Z) : R :=
  sumR (map (fun x => ((IZR x - meanR xs) * (IZR x - meanR xs))%R) xs).

(** Population standard deviation. *)
Definition pstdR (xs : list Z) : R := sqrt (sq_dev xs / IZR (Num.count xs)).

(** Sample standard deviation (one delta degree of freedom). *)
Definition sstdR (xs : list Z) : R := sqrt (sq_dev xs / IZR (Num.count xs - 1)).

(** z = (q − μ)/σ, and 0 when σ = 0. *)
Definition zR (xs : list Z) (q : Z) : R :=
  if Req_dec_T (pstdR xs) 0 then 0%R else ((IZR q - meanR xs) / pstdR xs)%R.

End Den.

(** ** The record store and the values that cross its interface *)

(** The optional store filter of a request as the Python value it is:
    [None], the raw string of the query argument, or the parsed integer. *)
Inductive pyval : Type :=
| PNone
| PStr (s : string)
| PInt (n : Z).

(** Truth value of [if store_id:]. *)
Definition truthy (v : pyval) : bool :=
  match v with
  | PNone => false
  | PStr s => negb (String.eqb s "")
  | PInt n => negb (n =? 0)
  end.

Record InventoryRow : Type := mkInventory {
  available_qty : Z;
  reorder_level : option Z
}.

(** What the record store answers.  [sales_table f l] is the answer to the
    select on [dynamic_sales] with the filter [.eq("store_id", f)] (when
    given) and [.limit(l)] (when given): the rows, or the exception
    [execute()] raises.  The other tables answer with the matching rows. *)
Record Db : Type := mkDb {
  sales_table : option pyval -> option nat -> result (list SaleRecord);
  dynamic_inventory : Z -> Z -> list InventoryRow;
  dynamic_product : Z -> list string;
  stores : Z -> list string
}.

(** [product[0]["name"] if product ... else f"Product ID: {product_id}"] *)
Definition product_name_of (db : Db) (product_id : Z) : string :=
  match dynamic_product db product_id with
  | name :: _ => name
  | [] => ("Product ID: " ++ str_Z product_id)%string
  end.

Definition shop_name_of (db : Db) (sid : Z) : string :=
  match stores db sid with
  | name :: _ => name
  | [] => ("Store ID: " ++ str_Z sid)%string
  end.

Inductive anomaly_type : Type := High | Low.

(** ** salesforcast.py *)

Module Salesforcast.

Record Forecast : Type := mkForecast {
  f_product_id : Z;
  f_store_id : Z;
  predicted_demand : Q;
  current_stock : Z;
  f_product_name : string;
  f_shop_name : string;
  recommendation : string;
  forecast_period : string;
  f_created_at : Z
}.

Record Anomaly : Type := mkAnomaly {
  a_product_id : Z;
  a_store_id : Z;
  a_quantity : Z;
  a_sold_at : Z;
  a_type : anomaly_type;
  a_created_at : Z
}.

(** The dictionary [sales_trends] returns; a dictionary is the list of its
    items in insertion order. *)
Record Trends : Type := mkTrends {
  top_products : list (Z * Z);
  top_stores : list (Z * Z);
  monthly_trends : list (string * Z)
}.

Section Run.
Variable db : Db.
Variable now : nat -> Z.

(** The body of the loop of [forecast_demand] for one pair; the state is
    the list [forecasts] and the number of clock readings so far. *)
Definition forecast_pair (monthly_sales : list MonthlyBucket)
    (st : list Forecast * nat) (pr : Z * Z) : list Forecast * nat :=
  let '(forecasts, tick) := st in
  let product_data := Frame.sort_by_month (Frame.rows_of_pair pr monthly_sales) in
  if (List.length product_data <? 2)%nat then st
  else
    let y := map b_quantity product_data in
    let model := Num.linear_fit y in
    let predicted := Num.max0 (Num.predict model (Num.count product_data)) in
    let inventory := dynamic_inventory db (fst pr) (snd pr) in
    let stock := match inventory with
                 | row :: _ => available_qty row
                 | [] => 0
                 end in
    let reorder := match inventory with
                   | row :: _ => match reorder_level row with
                                 | Some l => l
                                 | None => 0
                                 end
                   | [] => 0
                   end in
    let verdict := if Num.Qltb (inject_Z (stock + reorder)) predicted
                   then "Restock recommended"%string
                   else "No restock needed"%string in
    (forecasts ++
       [mkForecast (fst pr) (snd pr) (Num.round2 predicted) stock
          (product_name_of db (fst pr)) (shop_name_of db (snd pr)) verdict
          (Calendar.month_label (now tick + 30 * 86400))
          (now (S tick))],
     S (S tick)).

(** [forecast_demand] after the fetch, on a frame that has its columns. *)
Definition forecast_sales (sales : list SaleRecord) : list Forecast :=
  let monthly_sales := Frame.groupby_sum sales in
  fst (fold_left (forecast_pair monthly_sales)
         (Frame.drop_duplicates pair_eqb (map bucket_pair monthly_sales))
         ([], 0%nat)).

(** [pd.DataFrame([])] has no columns: the first column access raises
    [KeyError]. *)
Definition forecast_demand : result (list Forecast) :=
  sales <- sales_table db None None ;;
  match sales with
  | [] => Raise (KeyError "sold_at")
  | _ => Ok (forecast_sales sales)
  end.

(** The body of [for idx in anomaly_indices]. *)
Definition emit_anomaly (product_sales : list SaleRecord) (z_scores : list Num.zscore)
    (st : list Anomaly * nat) (idx : nat) : list Anomaly * nat :=
  let '(anomalies, tick) := st in
  match nth_error product_sales idx, nth_error z_scores idx with
  | Some row, Some z =>
      (anomalies ++
         [mkAnomaly (dynamic_product_id row) (store_id row) (quantity row) (sold_at row)
            (if Num.z_pos z then High else Low) (now tick)],
       S tick)
  | _, _ => st
  end.

(** The anomalies of one series of rows. *)
Definition detect_series (product_sales : list SaleRecord)
    (st : list Anomaly * nat) : list Anomaly * nat :=
  let quantities := map quantity product_sales in
  if (List.length quantities <? 3)%nat then st
  else
    let z_scores := Num.z_scores quantities in
    fold_left (emit_anomaly product_sales z_scores) (Num.anomaly_indices z_scores) st.

Definition detect_pair (sales : list SaleRecord)
    (st : list Anomaly * nat) (pr : Z * Z) : list Anomaly * nat :=
  detect_series (Frame.sales_of_pair pr sales) st.

Definition detect_sales (sales : list SaleRecord) : list Anomaly :=
  fst (fold_left (detect_pair sales)
         (Frame.drop_duplicates pair_eqb (map sale_pair sales))
         ([], 0%nat)).

Definition detect_anomalies : result (list Anomaly) :=
  sales <- sales_table db None None ;;
  match sales with
  | [] => Raise (KeyError "sold_at")
  | _ => Ok (detect_sales sales)
  end.

(** [sales_trends] after the fetch, on a frame that has its columns. *)
Definition trends_of (sales : list SaleRecord) : Trends :=
  mkTrends
    (Frame.nlargest 5 (Frame.groupby_column Z.eqb Z.leb dynamic_product_id sales))
    (Frame.nlargest 5 (Frame.groupby_column Z.eqb Z.leb store_id sales))
    (Frame.groupby_column String.eqb String.leb sale_month sales).

Definition sales_trends : result Trends :=
  sales <- sales_table db None None ;;
  match sales with
  | [] => Raise (KeyError "sold_at")
  | _ => Ok (trends_of sales)
  end.

End Run.

(** The body of the answer of [handler]. *)
Inductive report : Type :=
| Report (forecasts : list Forecast) (anomalies : list Anomaly) (trends : Trends)
| Failure (body : string).

(** [handler]: the three steps in order, each on a fresh fetch; the clock of
    the second step goes on where the first stopped. *)
Definition handler (db : Db) (now : nat -> Z) : Z * report :=
  match forecast_demand db now with
  | Raise e => (500, Failure (exn_str e))
  | Ok forecasts =>
      match detect_anomalies db (fun k => now (k + 2 * List.length forecasts)%nat) with
      | Raise e => (500, Failure (exn_str e))
      | Ok anomalies =>
          match sales_trends db with
          | Raise e => (500, Failure (exn_str e))
          | Ok trends => (200, Report forecasts anomalies trends)
          end
      end
  end.

End Salesforcast.

(** ** [int(s)] on a string *)

Module PyInt.

Definition is_space (c : ascii) : bool :=
  let n := nat_of_ascii c in
  ((9 <=? n) && (n <=? 13) || (28 <=? n) && (n <=? 32))%nat.

Definition is_digit (c : ascii) : bool :=
  let n := nat_of_ascii c in ((48 <=? n) && (n <=? 57))%nat.

Definition digit (c : ascii) : Z := Z.of_nat (nat_of_ascii c) - 48.

Fixpoint lstrip (cs : list ascii) : list ascii :=
  match cs with
  | c :: t => if is_space c then lstrip t else cs
  | [] => []
  end.

Definition strip (cs : list ascii) : list ascii :=
  rev (lstrip (rev (lstrip cs))).

(** Decimal digits, single underscores allowed between two digits. *)
Fixpoint digits (cs : list ascii) (acc : Z) (after_digit : bool) : option Z :=
  match cs with
  | [] => if after_digit then Some acc else None
  | c :: t =>
      if is_digit c then digits t (10 * acc + digit c) true
      else if Ascii.eqb c "_" && after_digit then digits t acc false
      else None
  end.

(** [Some n] when [int(s)] returns [n], [None] when it raises
    [ValueError]. *)
Definition py_int (s : string) : option Z :=
  match strip (list_ascii_of_string s) with
  | c :: t =>
      if Ascii.eqb c "-" then option_map Z.opp (digits t 0 false)
      else if Ascii.eqb c "+" then digits t 0 false
      else digits (c :: t) 0 false
  | [] => None
  end.

End PyInt.

(** ** recommendations.py *)

Module Recommendations.

Record Anomaly : Type := mkAnomaly {
  a_product_id : Z;
  a_store_id : Z;
  a_quantity : Z;
  a_sold_at : Z;
  a_type : anomaly_type;
  a_product_name : string;
  a_shop_name : string;
  a_created_at : Z
}.

Record Recommendation : Type := mkRecommendation {
  r_product_id : Z;
  r_store_id : Z;
  r_product_name : string;
  r_shop_name : string;
  r_month : string;
  r_quantity_sold : Z;
  r_recommendation : string;
  r_created_at : Z
}.

Record Patterns : Type := mkPatterns {
  restock_recommendations : list Recommendation;
  avoid_restock : list Recommendation;
  high_demand_periods : list Recommendation
}.

Definition no_patterns : Patterns := mkPatterns [] [] [].

Section Run.
Variable db : Db.
Variable now : nat -> Z.

(** [IsolationForest(n_estimators=20, max_samples=128, contamination=0.05,
    random_state=42, n_jobs=1).fit_predict] on one column of quantities:
    the labels (1 inlier, -1 outlier), or the exception it raises. *)
Variable fit_predict : list Z -> result (list Z).

(** The select of both functions: at most 500 rows, of the store when the
    filter is truthy. *)
Definition fetch_sales (store_filter : pyval) : result (list SaleRecord) :=
  sales_table db (if truthy store_filter then Some store_filter else None) (Some 500%nat).

(** [row["quantity"] > product_data["quantity"].mean()] *)
Definition above_mean (q : Z) (m : option Q) : bool :=
  match m with
  | Some a => Num.Qltb a (inject_Z q)
  | None => false
  end.

(** The body of [for idx in anomaly_rows]. *)
Definition emit_anomaly (product_data : list SaleRecord) (pr : Z * Z)
    (st : list Anomaly * nat) (idx : nat) : list Anomaly * nat :=
  let '(anomalies, tick) := st in
  match nth_error product_data idx with
  | Some row =>
      (anomalies ++
         [mkAnomaly (dynamic_product_id row) (store_id row) (quantity row) (sold_at row)
            (if above_mean (quantity row) (Num.mean (map quantity product_data))
             then High else Low)
            (product_name_of db (fst pr)) (shop_name_of db (snd pr))
            (now tick)],
       S tick)
  | None => st
  end.

(** Positions of the rows labelled [-1]. *)
Definition outlier_rows (labels : list Z) : list nat :=
  map fst (filter (fun il => snd il =? -1) (combine (seq 0 (List.length labels)) labels)).

Definition detect_pair (sales : list SaleRecord)
    (st : list Anomaly * nat) (pr : Z * Z) : list Anomaly * nat :=
  let product_data := Frame.sales_of_pair pr sales in
  if (List.length product_data <? 3)%nat then st
  else if (500 <? List.length product_data)%nat then st
  else
    match fit_predict (map quantity product_data) with
    | Raise _ => st
    | Ok labels =>
        if negb (List.length labels =? List.length product_data)%nat then st
        else fold_left (emit_anomaly product_data pr) (outlier_rows labels) st
    end.

Definition detect_sales (sales : list SaleRecord) : list Anomaly :=
  match sales with
  | [] => []
  | _ =>
      fst (fold_left (detect_pair sales)
             (Frame.drop_duplicates pair_eqb (map sale_pair sales))
             ([], 0%nat))
  end.

Definition detect_anomalies (store_filter : pyval) : result (list Anomaly) :=
  sales <- fetch_sales store_filter ;;
  Ok (detect_sales sales).

(** The body of [for _, row in product_data.iterrows()]. *)
Definition classify_row (high_sales_threshold low_sales_threshold : option Num.surd)
    (pr : Z * Z) (st : Patterns * nat) (row : MonthlyBucket) : Patterns * nat :=
  let '(p, tick) := st in
  let product_name := product_name_of db (fst pr) in
  let shop_name := shop_name_of db (snd pr) in
  let qty := b_quantity row in
  let month := b_month row in
  if Num.geb qty high_sales_threshold then
    (mkPatterns
       (restock_recommendations p ++
          [mkRecommendation (fst pr) (snd pr) product_name shop_name month qty
             ("Restock " ++ product_name ++ " for " ++ month ++ " due to high demand")
             (now tick)])
       (avoid_restock p)
       (high_demand_periods p ++
          [mkRecommendation (fst pr) (snd pr) product_name shop_name month qty
             ("High demand for " ++ product_name ++ " in " ++ month
                ++ "; plan inventory accordingly")
             (now (S tick))]),
     S (S tick))
  else if Num.leb qty low_sales_threshold then
    (mkPatterns
       (restock_recommendations p)
       (avoid_restock p ++
          [mkRecommendation (fst pr) (snd pr) product_name shop_name month qty
             ("Purchase " ++ product_name ++ " less frequently for " ++ month
                ++ " due to low sales")
             (now tick)])
       (high_demand_periods p),
     S tick)
  else st.

Definition classify_pair (monthly_sales : list MonthlyBucket)
    (high_sales_threshold low_sales_threshold : option Num.surd)
    (st : Patterns * nat) (pr : Z * Z) : Patterns * nat :=
  fold_left (classify_row high_sales_threshold low_sales_threshold pr)
    (Frame.rows_of_pair pr monthly_sales) st.

(** The thresholds and the loops, on the monthly frame. *)
Definition classify_monthly (monthly_sales : list MonthlyBucket) : Patterns :=
  let quantities := map b_quantity monthly_sales in
  let mean_sales := Num.mean quantities in
  let high_sales_threshold := Num.add_std mean_sales (Num.std 1 quantities) in
  let low_sales_threshold := Num.sub_std mean_sales (Num.std 1 quantities) in
  fst (fold_left (classify_pair monthly_sales high_sales_threshold low_sales_threshold)
         (Frame.drop_duplicates pair_eqb (map bucket_pair monthly_sales))
         (no_patterns, 0%nat)).

Definition analyze_sales (sales : list SaleRecord) : Patterns :=
  match sales with
  | [] => no_patterns
  | _ => classify_monthly (Frame.groupby_sum sales)
  end.

Definition analyze_sales_patterns (store_filter : pyval) : result Patterns :=
  sales <- fetch_sales store_filter ;;
  Ok (analyze_sales sales).

End Run.

(** *** The request surface *)

Inductive body : Type :=
| ErrorBody (error : string)
| Payload (anomalies : list Anomaly) (p : Patterns).

(** The computations a request started, in order. *)
Inductive call : Type :=
| DetectAnomalies (store_filter : pyval)
| AnalyzeSalesPatterns (store_filter : pyval).

Section Endpoint.
Variable detect : pyval -> result (list Anomaly).
Variable analyze : pyval -> result Patterns.

Definition internal_error (e : exn) : Z * body :=
  (500, ErrorBody ("Internal Server Error: " ++ exn_str e)).

(** The endpoint after the filter is read. *)
Definition respond (store_filter : pyval) : (Z * body) * list call :=
  match detect store_filter with
  | Raise e => (internal_error e, [DetectAnomalies store_filter])
  | Ok anomalies =>
      match analyze store_filter with
      | Raise e =>
          (internal_error e,
           [DetectAnomalies store_filter; AnalyzeSalesPatterns store_filter])
      | Ok p =>
          ((200, Payload anomalies p),
           [DetectAnomalies store_filter; AnalyzeSalesPatterns store_filter])
      end
  end.

(** [recommendations_endpoint], on the value of
    [request.args.get('store_id')]. *)
Definition recommendations_endpoint (arg : option string) : (Z * body) * list call :=
  match arg with
  | None => respond PNone
  | Some s =>
      if truthy (PStr s) then
        match PyInt.py_int s with
        | Some n => respond (PInt n)
        | None => ((400, ErrorBody "Invalid store_id format"), [])
        end
      else respond (PStr s)
  end.
End Endpoint.

(** The endpoint on the functions of this module; the clock of the second
    call goes on where the first stopped. *)
Definition app (db : Db) (now : nat -> Z) (fit_predict : list Z -> result (list Z))
    (arg : option string) : (Z * body) * list call :=
  recommendations_endpoint
    (detect_anomalies db now fit_predict)
    (fun f =>
       analyze_sales_patterns db
         (fun k => now (k + match detect_anomalies db now fit_predict f with
                            | Ok a => List.length a
                            | Raise _ => 0
                            end)%nat) f)
    arg.

End Recommendations.

(** ** customer_inquiries.py *)

Module CustomerInquiries.

(** The dictionary [responses], in insertion order. *)
Definition responses : list (string * string) :=
  [("stock", "Please check the inventory dashboard or contact support for stock details.");
   ("availability", "Availability can be checked in real-time on the platform.");
   ("order", "Orders can be placed through the platform or by contacting support.");
   ("delivery", "Delivery timelines depend on your location. Please provide more details.");
   ("price", "Pricing details are available in the product catalog.")]%string.

Definition fallback : string :=
  "Thank you for your inquiry. Please provide more details or contact support.".

(** [for key, response in responses.items(): if key in tokens: return
    response], then the fall-back answer. *)
Fixpoint first_response (table : list (string * string)) (tokens : list string) : string :=
  match table with
  | [] => fallback
  | (key, response) :: rest =>
      if existsb (String.eqb key) tokens then response
      else first_response rest tokens
  end.

Section Tokens.
(** [word_tokenize(text.lower())] of NLTK, the tokens of the lowered text. *)
Variable lowered_tokens : string -> list string.

Definition process_inquiry (inquiry_text : string) : string :=
  first_response responses (lowered_tokens inquiry_text).
End Tokens.

End CustomerInquiries.

(** * Vocabulary of the properties *)

(** The sum of the quantities of the records of a key. *)
Definition total_of (k : key) (sales : list SaleRecord) : Z :=
  Num.sumZ (map quantity (filter (fun r => key_eqb (sale_key r) k) sales)).

(** What the groups hold after a prefix of the frame is read. *)
Definition groups_of (g : list (key * Z)) (seen : list SaleRecord) : Prop :=
  NoDup (map fst g) /\
  (forall k v, In (k, v) g -> v = total_of k seen) /\
  (forall k, In k (map fst g) <-> In k (map sale_key seen)).

(** A threshold whose radicand is not negative. *)
Definition surd_wf (s : Num.surd) : Prop :=
  match s with
  | Num.Plus _ r | Num.Minus _ r => (0 <= Q2R (Num.radicand r))%R
  end.

(** The positions, counted from [s], of the elements of a list that pass a
    test. *)
Definition picked_from {A : Type} (p : A -> bool) (s : nat) (l : list A) : list nat :=
  map fst (filter (fun ix => p (snd ix)) (combine (seq s (List.length l)) l)).

(** One entry of [z_scores]. *)
Definition z_of (quantities : list Z) (q : Z) : Num.zscore :=
  match Num.mean quantities, Num.std 0 quantities with
  | Some m, Some s => if Num.root_pos s then Num.ZQuot (inject_Z q - m) s else Num.ZZero
  | _, _ => Num.ZZero
  end.

(** The anomalies appended for a list of positions, the first stamped with
    the clock reading [t]. *)
Fixpoint emitted (now : nat -> Z) (rows : list SaleRecord) (zs : list Num.zscore)
    (t : nat) (idxs : list nat) : list Salesforcast.Anomaly :=
  match idxs with
  | [] => []
  | i :: rest =>
      match nth_error rows i, nth_error zs i with
      | Some row, Some z =>
          Salesforcast.mkAnomaly (dynamic_product_id row) (store_id row) (quantity row)
            (sold_at row) (if Num.z_pos z then High else Low) (now t)
          :: emitted now rows zs (S t) rest
      | _, _ => emitted now rows zs t rest
      end
  end.

(** Five sales of one pair with the quantities 10, 10, 10, 10, 100. *)
Definition example_series : list SaleRecord :=
  [mkSale 1 1 10 0; mkSale 1 1 10 60; mkSale 1 1 10 120; mkSale 1 1 10 180;
   mkSale 1 1 100 240].

(** The bucket a recommendation speaks of. *)
Definition rec_bucket (r : Recommendations.Recommendation) : MonthlyBucket :=
  mkBucket (Recommendations.r_product_id r) (Recommendations.r_store_id r)
    (Recommendations.r_month r) (Recommendations.r_quantity_sold r).

(** The two branches of the loop body, as tests on a bucket. *)
Definition is_high (hi : option Num.surd) (b : MonthlyBucket) : bool :=
  Num.geb (b_quantity b) hi.

Definition is_low (hi lo : option Num.surd) (b : MonthlyBucket) : bool :=
  negb (Num.geb (b_quantity b) hi) && Num.leb (b_quantity b) lo.

(** The recommendations of a list that are about the bucket of a key. *)
Definition count_for (b : MonthlyBucket) (l : list Recommendations.Recommendation) : nat :=
  List.length (filter (fun r => key_eqb (bucket_key (rec_bucket r)) (bucket_key b)) l).

(** The thresholds in the words of the specification: mean plus and minus
    the (sample) standard deviation of the bucket quantities. *)
Definition high_threshold (monthly : list MonthlyBucket) : R :=
  (Den.meanR (map b_quantity monthly) + Den.sstdR (map b_quantity monthly))%R.

Definition low_threshold (monthly : list MonthlyBucket) : R :=
  (Den.meanR (map b_quantity monthly) - Den.sstdR (map b_quantity monthly))%R.

(** How many restock, high-demand and avoid-restock recommendations the
    analyzer returns about a bucket. *)
Definition emitted_for (db : Db) (now : nat -> Z) (sales : list SaleRecord)
    (b : MonthlyBucket) : nat * nat * nat :=
  let p := Recommendations.analyze_sales db now sales in
  (count_for b (Recommendations.restock_recommendations p),
   count_for b (Recommendations.high_demand_periods p),
   count_for b (Recommendations.avoid_restock p)).

(** A record store with no rows. *)
Definition empty_store : Db :=
  mkDb (fun _ _ => Ok []) (fun _ _ => []) (fun _ => []) (fun _ => []).

(** Two months of one pair with the same total. *)
Definition flat_sales : list SaleRecord :=
  [mkSale 1 1 5 0; mkSale 1 1 5 (31 * 86400)].

(** A forest that labels every point an inlier. *)
Definition all_inliers (quantities : list Z) : result (list Z) :=
  Ok (map (fun _ => 1) quantities).

(** An anomaly without its time stamp: the flagged point and its type. *)
Definition zscore_flag (a : Salesforcast.Anomaly) : Z * Z * Z * Z * anomaly_type :=
  (Salesforcast.a_product_id a, Salesforcast.a_store_id a, Salesforcast.a_quantity a,
   Salesforcast.a_sold_at a, Salesforcast.a_type a).

Definition density_flag (a : Recommendations.Anomaly)
  : Z * Z * Z * Z * anomaly_type * string * string :=
  (Recommendations.a_product_id a, Recommendations.a_store_id a,
   Recommendations.a_quantity a, Recommendations.a_sold_at a, Recommendations.a_type a,
   Recommendations.a_product_name a, Recommendations.a_shop_name a).

(** Eleven sales of one pair: ten of 10 units and one of 1000. *)
Definition outlier_sales : list SaleRecord :=
  map (fun q => mkSale 1 1 q 0) [10; 10; 10; 10; 10; 10; 10; 10; 10; 10; 1000].

(** Two states that hold the same flagged points. *)
Definition same_zscore_flags (s t : list Salesforcast.Anomaly * nat) : Prop :=
  map zscore_flag (fst s) = map zscore_flag (fst t).

Definition same_density_flags (s t : list Recommendations.Anomaly * nat) : Prop :=
  map density_flag (fst s) = map density_flag (fst t).

(** The k-th anomaly of a run carries the k-th reading of the clock. *)
Definition zscore_stamped (now : nat -> Z) (s : list Salesforcast.Anomaly * nat) : Prop :=
  snd s = List.length (fst s) /\
  forall k a, nth_error (fst s) k = Some a -> Salesforcast.a_created_at a = now k.

(** The sum of squared residuals of the line [a + b x] on the points
    [(i, y_i)]. *)
Definition sse (a b : Q) (ys : list Z) : Q :=
  Num.sumQ
    (map (fun p => let r := (inject_Z (snd p) - (a + b * inject_Z (fst p)))%Q in (r * r)%Q)
       (combine (Num.indices ys) ys)).

(** The sum of squared residuals over the reals. *)
Definition sseR (a b : R) (pts : list (Z * Z)) : R :=
  Den.sumR (map (fun p => let r := (IZR (snd p) - (a + b * IZR (fst p)))%R in (r * r)%R) pts).

(** A line through the points [(i, y_i)] that no other line beats. *)
Definition least_squares (a b : Q) (ys : list Z) : Prop :=
  forall a' b' : Q, (sse a b ys <= sse a' b' ys)%Q.

(** The points the model is fitted on. *)
Definition points (ys : list Z) : list (Z * Z) := combine (Num.indices ys) ys.

(** The monthly series of a pair: its buckets in ascending order of month. *)
Definition series_of (pr : Z * Z) (monthly_sales : list MonthlyBucket) : list MonthlyBucket :=
  Frame.sort_by_month (Frame.rows_of_pair pr monthly_sales).

(** Three months of one pair: 10, 20 and 30 units. *)
Definition rising_months : list MonthlyBucket :=
  [mkBucket 1 1 "2024-01" 10; mkBucket 1 1 "2024-02" 20; mkBucket 1 1 "2024-03" 30].

(** A record store that holds 5 units of the pair and no reorder level. *)
Definition stocked_store : Db :=
  mkDb (fun _ _ => Ok []) (fun _ _ => [mkInventory 5 None]) (fun _ => []) (fun _ => []).

(** The sum of the quantities of the records whose column holds [k]. *)
Definition column_total {K : Type} (eqb : K -> K -> bool) (column : SaleRecord -> K)
    (k : K) (sales : list SaleRecord) : Z :=
  Num.sumZ (map quantity (filter (fun r => eqb (column r) k) sales)).

(** What the groups of one column hold after a prefix of the frame is read. *)
Definition column_groups {K : Type} (eqb : K -> K -> bool) (column : SaleRecord -> K)
    (g : list (K * Z)) (seen : list SaleRecord) : Prop :=
  NoDup (map fst g) /\
  (forall k v, In (k, v) g -> v = column_total eqb column k seen) /\
  (forall k, In k (map fst g) <-> In k (map column seen)).

(** Descending order of the values of a series. *)
Definition value_desc {K : Type} (a b : K * Z) : Prop := (snd b <=? snd a) = true.

(** [top] is the five largest totals of a column of the sales: at most five
    entries with distinct keys, in descending order of total, each the total
    of a key of the sales, and no key left out has a larger total than a key
    kept. *)
Definition top_five_of (column : SaleRecord -> Z) (sales : list SaleRecord)
    (top : list (Z * Z)) : Prop :=
  (List.length top <= 5)%nat /\
  NoDup (map fst top) /\
  StronglySorted value_desc top /\
  (forall k v, In (k, v) top ->
     In k (map column sales) /\ v = column_total Z.eqb column k sales) /\
  (forall k, In k (map column sales) -> ~ In k (map fst top) ->
     List.length top = 5%nat /\
     forall k' v, In (k', v) top -> column_total Z.eqb column k sales <= v).

(** Sums of deviations from a value and of their squares. *)
Definition dev_sum (m : R) (l : list Z) : R :=
  Den.sumR (map (fun x => (IZR x - m)%R) l).

Definition dev_squares (m : R) (l : list Z) : R :=
  Den.sumR (map (fun x => ((IZR x - m) * (IZR x - m))%R) l).

(** The anomalies the density detector appends for a list of positions. *)
Fixpoint density_emitted (db : Db) (now : nat -> Z) (rows : list SaleRecord) (pr : Z * Z)
    (t : nat) (idxs : list nat) : list Recommendations.Anomaly :=
  match idxs with
  | [] => []
  | i :: rest =>
      match nth_error rows i with
      | Some row =>
          Recommendations.mkAnomaly (dynamic_product_id row) (store_id row) (quantity row)
            (sold_at row)
            (if Recommendations.above_mean (quantity row) (Num.mean (map quantity rows))
             then High else Low)
            (product_name_of db (fst pr)) (shop_name_of db (snd pr)) (now t)
          :: density_emitted db now rows pr (S t) rest
      | None => density_emitted db now rows pr t rest
      end
  end.

(** The pair a forecast is about. *)
Definition forecast_pair_of (f : Salesforcast.Forecast) : Z * Z :=
  (Salesforcast.f_product_id f, Salesforcast.f_store_id f).

(** The pairs with at least two monthly buckets. *)
Definition has_two_months (monthly_sales : list MonthlyBucket) (pr : Z * Z) : bool :=
  (2 <=? List.length (Frame.rows_of_pair pr monthly_sales))%nat.

(** * Properties *)

(** ** Keys and the data-frame operations *)

Lemma key_eqb_eq (k1 k2 : key) : key_eqb k1 k2 = true <-> k1 = k2.
Proof.
  destruct k1 as [[p1 s1] m1], k2 as [[p2 s2] m2]; unfold key_eqb.
  rewrite !andb_true_iff, !Z.eqb_eq, String.eqb_eq.
  split; [intros [[-> ->] ->]; reflexivity | intros [= -> -> ->]; auto].
Qed.

Lemma key_eqb_refl (k : key) : key_eqb k k = true.
Proof. apply key_eqb_eq; reflexivity. Qed.

Lemma key_eqb_neq (k1 k2 : key) : key_eqb k1 k2 = false <-> k1 <> k2.
Proof.
  rewrite <- key_eqb_eq. destruct (key_eqb k1 k2); split; congruence.
Qed.

Lemma pair_eqb_eq (a b : Z * Z) : pair_eqb a b = true <-> a = b.
Proof.
  destruct a, b; unfold pair_eqb; simpl.
  rewrite andb_true_iff, !Z.eqb_eq. split; [intros [-> ->] | intros [= -> ->]]; auto.
Qed.

Lemma pair_eqb_refl (a : Z * Z) : pair_eqb a a = true.
Proof. apply pair_eqb_eq; reflexivity. Qed.

Lemma bucket_key_of (g : key * Z) : bucket_key (Frame.bucket_of g) = fst g.
Proof. destruct g as [[[p s] m] v]; reflexivity. Qed.

Lemma bucket_quantity_of (g : key * Z) : b_quantity (Frame.bucket_of g) = snd g.
Proof. destruct g as [[[p s] m] v]; reflexivity. Qed.

Lemma sumZ_app (l1 l2 : list Z) : Num.sumZ (l1 ++ l2) = Num.sumZ l1 + Num.sumZ l2.
Proof.
  unfold Num.sumZ. induction l1 as [|x xs IH]; simpl; [reflexivity | lia].
Qed.

Lemma total_of_app (k : key) (l1 l2 : list SaleRecord) :
  total_of k (l1 ++ l2) = total_of k l1 + total_of k l2.
Proof.
  unfold total_of. rewrite filter_app, map_app. apply sumZ_app.
Qed.

Section Sorting.
Context {A : Type} (leb : A -> A -> bool).

Lemma insert_perm (x : A) (l : list A) : Permutation (x :: l) (Frame.insert leb x l).
Proof.
  induction l as [|y t IH]; simpl; [reflexivity|].
  destruct (leb x y); [reflexivity|].
  rewrite perm_swap. constructor. exact IH.
Qed.

Lemma sort_perm (l : list A) : Permutation l (Frame.sort leb l).
Proof.
  induction l as [|x t IH]; simpl; [constructor|].
  rewrite <- insert_perm. constructor. exact IH.
Qed.

Lemma sort_length (l : list A) : List.length (Frame.sort leb l) = List.length l.
Proof. symmetry. apply Permutation_length, sort_perm. Qed.

Lemma sort_In (x : A) (l : list A) : In x (Frame.sort leb l) <-> In x l.
Proof.
  split; apply Permutation_in; [symmetry|]; apply sort_perm.
Qed.
End Sorting.

Section DropDuplicatesFacts.
Context {A : Type} (eqb : A -> A -> bool).
Hypothesis eqb_eq : forall x y, eqb x y = true <-> x = y.

Lemma mem_In (x : A) (l : list A) : Frame.mem eqb x l = true <-> In x l.
Proof.
  unfold Frame.mem. rewrite existsb_exists. split.
  - intros [y [Hy He]]. apply eqb_eq in He. subst; exact Hy.
  - intros H. exists x. split; [exact H | apply eqb_eq; reflexivity].
Qed.

Lemma drop_duplicates_fold (l seen : list A) :
  NoDup seen ->
  let out := fold_left (fun seen x => if Frame.mem eqb x seen then seen else seen ++ [x]) l seen in
  NoDup out /\ forall x, In x out <-> In x seen \/ In x l.
Proof.
  revert seen. induction l as [|a t IH]; intros seen Hnd; simpl.
  - split; [exact Hnd | intros x; tauto].
  - destruct (Frame.mem eqb a seen) eqn:Hm.
    + destruct (IH seen Hnd) as [H1 H2]. split; [exact H1|].
      intros x. rewrite H2. apply mem_In in Hm.
      split; [tauto | intros [H | [<- | H]]; auto].
    + assert (Hn : ~ In a seen) by (rewrite <- mem_In, Hm; discriminate).
      assert (Hnd' : NoDup (seen ++ [a])).
      { apply NoDup_app; [exact Hnd | repeat constructor; simpl; tauto |].
        intros x Hx [<- | []]. exact (Hn Hx). }
      destruct (IH _ Hnd') as [H1 H2]. split; [exact H1|].
      intros x. rewrite H2, in_app_iff. simpl. tauto.
Qed.

Lemma drop_duplicates_NoDup (l : list A) : NoDup (Frame.drop_duplicates eqb l).
Proof. apply (drop_duplicates_fold l []). constructor. Qed.

Lemma drop_duplicates_In (x : A) (l : list A) :
  In x (Frame.drop_duplicates eqb l) <-> In x l.
Proof.
  destruct (drop_duplicates_fold l [] (NoDup_nil A)) as [_ H].
  unfold Frame.drop_duplicates. rewrite H. simpl. tauto.
Qed.
End DropDuplicatesFacts.

(** The grouped sum, one record at a time. *)

Lemma accumulate_keys (k : key) (q : Z) (g : list (key * Z)) :
  map fst (Frame.accumulate k q g) =
  if Frame.mem key_eqb k (map fst g) then map fst g else map fst g ++ [k].
Proof.
  induction g as [|[k' v] rest IH]; simpl; [reflexivity|].
  destruct (key_eqb k k') eqn:E; simpl; [reflexivity|].
  rewrite IH. unfold Frame.mem. destruct (existsb _ _); reflexivity.
Qed.

Lemma accumulate_In (k : key) (q : Z) (g : list (key * Z)) (k' : key) (v' : Z) :
  NoDup (map fst g) ->
  In (k', v') (Frame.accumulate k q g) ->
  (k' <> k /\ In (k', v') g) \/
  (k' = k /\ ((exists v, In (k, v) g /\ v' = v + q) \/ (~ In k (map fst g) /\ v' = q))).
Proof.
  induction g as [|[k0 v0] rest IH]; simpl; intros Hnd.
  - intros [[= <- <-] | []]. right. split; [reflexivity|]. right. tauto.
  - inversion Hnd as [|? ? Hk0 Hnd']; subst.
    destruct (key_eqb k k0) eqn:E.
    + apply key_eqb_eq in E. subst k0. intros [[= <- <-] | H].
      * right. split; [reflexivity|]. left. exists v0. auto.
      * left. split; [|auto]. intros ->. apply Hk0.
        apply (in_map fst) in H. exact H.
    + apply key_eqb_neq in E. intros [[= <- <-] | H].
      * left. split; [congruence | auto].
      * destruct (IH Hnd' H) as [[Hn Hi] | [-> [[v [Hi ->]] | [Hn ->]]]].
        -- left. auto.
        -- right. split; [reflexivity|]. left. exists v. auto.
        -- right. split; [reflexivity|]. right. split; [|reflexivity].
           intros [He | Hi]; [congruence | exact (Hn Hi)].
Qed.

Lemma accumulate_NoDup (k : key) (q : Z) (g : list (key * Z)) :
  NoDup (map fst g) -> NoDup (map fst (Frame.accumulate k q g)).
Proof.
  intros Hnd. rewrite accumulate_keys.
  destruct (Frame.mem key_eqb k (map fst g)) eqn:E; [exact Hnd|].
  assert (Hn : ~ In k (map fst g)).
  { rewrite <- (mem_In key_eqb key_eqb_eq), E. discriminate. }
  apply NoDup_app; [exact Hnd | repeat constructor; simpl; tauto |].
  intros x Hx [<- | []]. exact (Hn Hx).
Qed.

Lemma accumulate_has_key (k : key) (q : Z) (g : list (key * Z)) (k' : key) :
  In k' (map fst (Frame.accumulate k q g)) <-> k' = k \/ In k' (map fst g).
Proof.
  rewrite accumulate_keys.
  destruct (Frame.mem key_eqb k (map fst g)) eqn:E.
  - apply (mem_In key_eqb key_eqb_eq) in E. split; [tauto | intros [-> | H]; auto].
  - rewrite in_app_iff. simpl. split; [intros [H | [H | []]]; auto | intros [-> | H]; auto].
Qed.

Lemma total_of_single (k : key) (r : SaleRecord) :
  total_of k [r] = if key_eqb (sale_key r) k then quantity r else 0.
Proof.
  unfold total_of, Num.sumZ. cbn [filter]. destruct (key_eqb (sale_key r) k); cbn [map fold_right]; lia.
Qed.

Lemma total_of_absent (k : key) (seen : list SaleRecord) :
  ~ In k (map sale_key seen) -> total_of k seen = 0.
Proof.
  unfold total_of. induction seen as [|r t IH]; cbn [map filter In]; intros H; [reflexivity|].
  destruct (key_eqb (sale_key r) k) eqn:E.
  - apply key_eqb_eq in E. tauto.
  - apply IH. tauto.
Qed.

Lemma groups_of_step (g : list (key * Z)) (seen : list SaleRecord) (r : SaleRecord) :
  groups_of g seen ->
  groups_of (Frame.accumulate (sale_key r) (quantity r) g) (seen ++ [r]).
Proof.
  intros (Hnd & Hv & Hk). split; [|split].
  - apply accumulate_NoDup, Hnd.
  - intros k v Hin. rewrite total_of_app, total_of_single.
    destruct (accumulate_In _ _ _ _ _ Hnd Hin) as [[Hn Hi] | [-> [[v0 [Hi ->]] | [Hn ->]]]].
    + assert (E : key_eqb (sale_key r) k = false) by (apply key_eqb_neq; congruence).
      rewrite E, (Hv _ _ Hi). lia.
    + rewrite key_eqb_refl, (Hv _ _ Hi). reflexivity.
    + rewrite key_eqb_refl, total_of_absent; [reflexivity|]. rewrite <- Hk. exact Hn.
  - intros k. rewrite accumulate_has_key, map_app, in_app_iff, Hk. simpl.
    split; [intros [-> | H]; auto | intros [H | [<- | []]]; auto].
Qed.

Lemma groups_of_fold (l : list SaleRecord) (g : list (key * Z)) (seen : list SaleRecord) :
  groups_of g seen ->
  groups_of (fold_left (fun groups r => Frame.accumulate (sale_key r) (quantity r) groups) l g)
    (seen ++ l).
Proof.
  revert g seen. induction l as [|r t IH]; intros g seen H; simpl.
  - rewrite app_nil_r. exact H.
  - replace (seen ++ r :: t) with ((seen ++ [r]) ++ t) by (rewrite <- app_assoc; reflexivity).
    apply IH, groups_of_step, H.
Qed.

Lemma groupby_sum_groups (sales : list SaleRecord) :
  exists g, groups_of g sales /\
            Permutation g (Frame.sort (fun a b => key_leb (fst a) (fst b)) g) /\
            Frame.groupby_sum sales =
              map Frame.bucket_of (Frame.sort (fun a b => key_leb (fst a) (fst b)) g).
Proof.
  eexists. split; [|split; [apply sort_perm | reflexivity]].
  apply (groups_of_fold sales [] []). split; [constructor | split].
  - intros k v [].
  - intros k; simpl; tauto.
Qed.

Lemma groupby_sum_keys (sales : list SaleRecord) :
  exists g, groups_of g sales /\
            Permutation (map fst g) (map bucket_key (Frame.groupby_sum sales)) /\
            Permutation (map Frame.bucket_of g) (Frame.groupby_sum sales).
Proof.
  destruct (groupby_sum_groups sales) as (g & Hg & Hp & He).
  exists g. split; [exact Hg|]. rewrite He. split.
  - rewrite map_map.
    rewrite (map_ext (fun x => bucket_key (Frame.bucket_of x)) fst)
      by (intros a; apply bucket_key_of).
    apply Permutation_map, Hp.
  - apply Permutation_map, Hp.
Qed.

Lemma groupby_sum_NoDup (sales : list SaleRecord) :
  NoDup (map bucket_key (Frame.groupby_sum sales)).
Proof.
  destruct (groupby_sum_keys sales) as (g & (Hnd & _) & Hp & _).
  eapply Permutation_NoDup; eassumption.
Qed.

Lemma groupby_sum_In_key (sales : list SaleRecord) (k : key) :
  In k (map bucket_key (Frame.groupby_sum sales)) <-> In k (map sale_key sales).
Proof.
  destruct (groupby_sum_keys sales) as (g & (_ & _ & Hk) & Hp & _).
  rewrite <- Hk. split; apply Permutation_in; [symmetry|]; exact Hp.
Qed.

Lemma groupby_sum_total (sales : list SaleRecord) (b : MonthlyBucket) :
  In b (Frame.groupby_sum sales) -> b_quantity b = total_of (bucket_key b) sales.
Proof.
  destruct (groupby_sum_keys sales) as (g & (_ & Hv & _) & _ & Hp).
  intros Hb. apply (Permutation_in _ (Permutation_sym Hp)) in Hb.
  apply in_map_iff in Hb. destruct Hb as ([k v] & <- & Hin).
  rewrite bucket_key_of, bucket_quantity_of. simpl. apply (Hv _ _ Hin).
Qed.


(** ** Denotation of the exact values in the real numbers *)

Lemma Qleb_iff (a b : Q) : Num.Qleb a b = true <-> (a <= b)%Q.
Proof. apply Qle_bool_iff. Qed.

Lemma Qltb_iff (a b : Q) : Num.Qltb a b = true <-> (a < b)%Q.
Proof.
  unfold Num.Qltb. rewrite negb_true_iff, <- not_true_iff_false, Qle_bool_iff.
  split; [apply Qnot_le_lt | apply Qlt_not_le].
Qed.

Lemma Qleb_R (a b : Q) : Num.Qleb a b = true <-> (Q2R a <= Q2R b)%R.
Proof. rewrite Qleb_iff. split; [apply Qle_Rle | apply Rle_Qle]. Qed.

Lemma Qltb_R (a b : Q) : Num.Qltb a b = true <-> (Q2R a < Q2R b)%R.
Proof. rewrite Qltb_iff. split; [apply Qlt_Rlt | apply Rlt_Qlt]. Qed.

Lemma Q2R_inject_Z (z : Z) : Q2R (inject_Z z) = IZR z.
Proof. unfold Q2R, inject_Z. simpl. rewrite Rinv_1. ring. Qed.

Lemma Q2R_sumQ (l : list Q) : Q2R (Num.sumQ l) = Den.sumR (map Q2R l).
Proof.
  induction l as [|x t IH]; simpl.
  - unfold Q2R; simpl; ring.
  - rewrite Q2R_plus, IH. reflexivity.
Qed.

Lemma sumR_nonneg (l : list R) : (forall x, In x l -> (0 <= x)%R) -> (0 <= Den.sumR l)%R.
Proof.
  unfold Den.sumR. induction l as [|x t IH]; simpl; intros H; [lra|].
  assert (0 <= x)%R by (apply H; auto).
  assert (0 <= fold_right Rplus 0 t)%R by (apply IH; intros; apply H; auto). lra.
Qed.

Lemma sq_dev_nonneg (xs : list Z) : (0 <= Den.sq_dev xs)%R.
Proof.
  apply sumR_nonneg. intros x Hx. apply in_map_iff in Hx.
  destruct Hx as (z & <- & _). cbv beta.
  apply Rle_0_sqr.
Qed.

Section Roots.
Local Open Scope R_scope.

Lemma sqrt_le_iff (v d : R) : 0 <= v -> (sqrt v <= d <-> 0 <= d /\ v <= d * d).
Proof.
  intros Hv. split.
  - intros H. pose proof (sqrt_pos v) as Hp. pose proof (sqrt_sqrt v Hv) as Hs.
    split; [lra | nra].
  - intros [Hd H]. rewrite <- (sqrt_square d Hd). apply sqrt_le_1_alt, H.
Qed.

Lemma neg_sqrt_le_iff (v d : R) : 0 <= v -> (- sqrt v <= d <-> 0 <= d \/ d * d <= v).
Proof.
  intros Hv. pose proof (sqrt_pos v) as Hp. pose proof (sqrt_sqrt v Hv) as Hs. split.
  - intros H. destruct (Rle_dec 0 d); [auto | right; nra].
  - intros [H | H]; [lra|].
    destruct (Rle_dec 0 d); [lra|].
    assert (Hd : - d <= sqrt v).
    { rewrite <- (sqrt_square (- d)) by lra. apply sqrt_le_1_alt. nra. }
    lra.
Qed.

Lemma sqrt_lt_abs_iff (v x : R) : 0 <= v -> (3 * sqrt v < Rabs x <-> 9 * v < x * x).
Proof.
  intros Hv. pose proof (sqrt_pos v) as Hp. pose proof (sqrt_sqrt v Hv) as Hs.
  pose proof (Rabs_pos x) as Ha.
  assert (Hsq : Rabs x * Rabs x = x * x).
  { unfold Rabs. destruct (Rcase_abs x); ring. }
  split; intros H; [nra|].
  destruct (Rlt_dec (3 * sqrt v) (Rabs x)); [assumption | nra].
Qed.
End Roots.

Lemma geb_R (q : Z) (s : Num.surd) :
  surd_wf s -> (Num.geb q (Some s) = true <-> (Den.surdR s <= IZR q)%R).
Proof.
  destruct s as [a [v] | a [v]]; simpl; intros Hv; unfold Den.rootR; simpl.
  - rewrite andb_true_iff, !Qleb_R, Q2R_mult, Q2R_minus, Q2R_inject_Z.
    replace (Q2R 0) with 0%R by (unfold Q2R; simpl; ring).
    pose proof (sqrt_le_iff (Q2R v) (IZR q - Q2R a) Hv) as H.
    split; [intros H1; apply H in H1; lra | intros H1; apply H; lra].
  - rewrite orb_true_iff, !Qleb_R, Q2R_mult, Q2R_minus, Q2R_inject_Z.
    replace (Q2R 0) with 0%R by (unfold Q2R; simpl; ring).
    pose proof (neg_sqrt_le_iff (Q2R v) (IZR q - Q2R a) Hv) as H.
    split; [intros H1; apply H in H1; lra | intros H1; apply H; lra].
Qed.

Lemma leb_R (q : Z) (s : Num.surd) :
  surd_wf s -> (Num.leb q (Some s) = true <-> (IZR q <= Den.surdR s)%R).
Proof.
  destruct s as [a [v] | a [v]]; simpl; intros Hv; unfold Den.rootR; simpl.
  - rewrite orb_true_iff, !Qleb_R, Q2R_mult, Q2R_minus, Q2R_inject_Z.
    replace (Q2R 0) with 0%R by (unfold Q2R; simpl; ring).
    pose proof (neg_sqrt_le_iff (Q2R v) (Q2R a - IZR q) Hv) as H.
    split; [intros H1 | intros H1; assert (H2 : (- sqrt (Q2R v) <= Q2R a - IZR q)%R) by lra;
                        apply H in H2].
    + assert (H2 : (0 <= Q2R a - IZR q \/ (Q2R a - IZR q) * (Q2R a - IZR q) <= Q2R v)%R).
      { destruct H1 as [H1 | H1]; [left; lra | right; lra]. }
      apply H in H2. lra.
    + destruct H2 as [H2 | H2]; [left; lra | right; lra].
  - rewrite andb_true_iff, !Qleb_R, Q2R_mult, Q2R_minus, Q2R_inject_Z.
    replace (Q2R 0) with 0%R by (unfold Q2R; simpl; ring).
    pose proof (sqrt_le_iff (Q2R v) (Q2R a - IZR q) Hv) as H.
    split; [intros H1 | intros H1; assert (H2 : (sqrt (Q2R v) <= Q2R a - IZR q)%R) by lra;
                        apply H in H2].
    + assert (H2 : (0 <= Q2R a - IZR q /\ Q2R v <= (Q2R a - IZR q) * (Q2R a - IZR q))%R).
      { split; [lra|]. destruct H1 as [_ H1]. lra. }
      apply H in H2. lra.
    + split; [lra|]. destruct H2 as [_ H2]. lra.
Qed.

(** ** The statistics: the exact values and the real ones *)

Lemma count_pos {A : Type} (xs : list A) : xs <> [] -> 0 < Num.count xs.
Proof. destruct xs; [congruence | unfold Num.count; simpl; lia]. Qed.

Lemma inject_Z_nonzero (z : Z) : z <> 0 -> ~ (inject_Z z == 0)%Q.
Proof. unfold Qeq, inject_Z; simpl. lia. Qed.

Lemma mean_some (xs : list Z) :
  xs <> [] -> exists m, Num.mean xs = Some m /\ Q2R m = Den.meanR xs.
Proof.
  intros Hne. pose proof (count_pos xs Hne) as Hc.
  destruct xs as [|x t]; [congruence|].
  eexists. split; [reflexivity|].
  rewrite Q2R_div by (apply inject_Z_nonzero; lia).
  rewrite !Q2R_inject_Z. reflexivity.
Qed.

Lemma std_some (ddof : Z) (xs : list Z) :
  0 < Num.count xs - ddof -> 0 <= ddof ->
  exists v, Num.std ddof xs = Some (Num.Sqrt v) /\
            Q2R v = (Den.sq_dev xs / IZR (Num.count xs - ddof))%R /\
            (0 <= Q2R v)%R.
Proof.
  intros Hd Hdd.
  assert (Hne : xs <> []) by (intros ->; unfold Num.count in Hd; simpl in Hd; lia).
  destruct (mean_some xs Hne) as (m & Hm & HmR).
  unfold Num.std. rewrite Hm.
  destruct (Num.count xs - ddof <=? 0) eqn:E; [apply Z.leb_le in E; lia|].
  eexists. split; [reflexivity|].
  assert (Hq : Q2R (Num.sumQ (map (fun x => ((inject_Z x - m) * (inject_Z x - m))%Q) xs)
                    / inject_Z (Num.count xs - ddof))
               = (Den.sq_dev xs / IZR (Num.count xs - ddof))%R).
  { rewrite Q2R_div by (apply inject_Z_nonzero; lia).
    rewrite Q2R_inject_Z, Q2R_sumQ, map_map. unfold Den.sq_dev.
    f_equal. f_equal. apply map_ext. intros a.
    rewrite Q2R_mult, Q2R_minus, Q2R_inject_Z, HmR. reflexivity. }
  split; [exact Hq|]. rewrite Hq.
  apply Rmult_le_pos; [apply sq_dev_nonneg|].
  apply Rlt_le, Rinv_0_lt_compat, IZR_lt. lia.
Qed.

Lemma std_none (ddof : Z) (xs : list Z) :
  Num.count xs - ddof <= 0 -> Num.std ddof xs = None.
Proof.
  intros H. unfold Num.std. destruct (Num.mean xs); [|reflexivity].
  destruct (Num.count xs - ddof <=? 0) eqn:E; [reflexivity | apply Z.leb_gt in E; lia].
Qed.

(** ** Positions picked from an enumerated list *)

Section Picked.
Context {A : Type} (p : A -> bool).

Lemma picked_from_cons (s : nat) (x : A) (l : list A) :
  picked_from p s (x :: l) =
  if p x then s :: picked_from p (S s) l else picked_from p (S s) l.
Proof. unfold picked_from. simpl. destruct (p x); reflexivity. Qed.

Lemma picked_from_In (l : list A) (s i : nat) :
  In i (picked_from p s l) <->
  (s <= i)%nat /\ exists x, nth_error l (i - s) = Some x /\ p x = true.
Proof.
  revert s. induction l as [|x t IH]; intros s.
  - unfold picked_from; simpl. split; [tauto|].
    intros [_ (x & H & _)]. destruct (i - s)%nat; discriminate.
  - rewrite picked_from_cons.
    assert (Hstep : In i (picked_from p (S s) t) <->
                    (S s <= i)%nat /\ exists y, nth_error (x :: t) (i - s) = Some y /\ p y = true).
    { rewrite IH. split; intros [Hle (y & Hy & Hp)]; (split; [exact Hle|]); exists y;
        (split; [|exact Hp]).
      - replace (i - s)%nat with (S (i - S s)) by lia. exact Hy.
      - replace (i - s)%nat with (S (i - S s)) in Hy by lia. exact Hy. }
    destruct (p x) eqn:Hx.
    + simpl In. rewrite Hstep. split.
      * intros [<- | [Hle H]]; [|split; [lia | exact H]].
        split; [lia|]. exists x. rewrite Nat.sub_diag. auto.
      * intros [Hle (y & Hy & Hp)].
        destruct (Nat.eq_dec s i) as [-> | Hne]; [left; reflexivity|].
        right. split; [lia|]. exists y. auto.
    + rewrite Hstep. split.
      * intros [Hle H]. split; [lia | exact H].
      * intros [Hle (y & Hy & Hp)].
        destruct (Nat.eq_dec s i) as [-> | Hne].
        -- rewrite Nat.sub_diag in Hy. simpl in Hy. congruence.
        -- split; [lia|]. exists y. auto.
Qed.

Lemma picked_from_sorted (l : list A) (s : nat) :
  StronglySorted lt (picked_from p s l).
Proof.
  revert s. induction l as [|x t IH]; intros s.
  - constructor.
  - rewrite picked_from_cons. destruct (p x); [|apply IH].
    constructor; [apply IH|].
    apply Forall_forall. intros i Hi. apply picked_from_In in Hi. lia.
Qed.
End Picked.

Lemma anomaly_indices_picked (zs : list Num.zscore) :
  Num.anomaly_indices zs = picked_from Num.abs_gt3 0 zs.
Proof. reflexivity. Qed.

(** ** The z-score detector *)

Lemma z_scores_nth (qs : list Z) (i : nat) :
  nth_error (Num.z_scores qs) i = option_map (z_of qs) (nth_error qs i).
Proof. unfold Num.z_scores. apply nth_error_map. Qed.

Lemma div_gt_iff (a s c : R) : (0 < s)%R -> (a / s > c <-> c * s < a)%R.
Proof.
  intros Hs. unfold Rdiv. split; intros H.
  - apply (Rmult_lt_reg_r (/ s)); [apply Rinv_0_lt_compat, Hs|].
    rewrite Rmult_assoc, Rinv_r by lra. lra.
  - apply (Rmult_lt_compat_r (/ s)) in H; [|apply Rinv_0_lt_compat, Hs].
    rewrite Rmult_assoc, Rinv_r in H by lra. lra.
Qed.

Lemma z_of_spec (qs : list Z) (q : Z) :
  qs <> [] ->
  (Num.abs_gt3 (z_of qs q) = true <-> (Rabs (Den.zR qs q) > 3)%R) /\
  (Num.z_pos (z_of qs q) = true <-> (Den.zR qs q > 0)%R).
Proof.
  intros Hne.
  destruct (mean_some qs Hne) as (m & Hm & HmR).
  destruct (std_some 0 qs) as (v & Hs & HvR & Hv0);
    [pose proof (count_pos qs Hne); lia | lia |].
  rewrite Z.sub_0_r in HvR.
  assert (Hp : Den.pstdR qs = sqrt (Q2R v)) by (unfold Den.pstdR; rewrite HvR; reflexivity).
  unfold z_of, Den.zR. rewrite Hm, Hs. unfold Num.root_pos. cbn [Num.radicand].
  assert (H0 : Q2R 0 = 0%R) by (unfold Q2R; simpl; ring).
  destruct (Num.Qltb 0 v) eqn:Hpos.
  - apply Qltb_R in Hpos. rewrite H0 in Hpos.
    pose proof (sqrt_lt_R0 _ Hpos) as Hsq.
    destruct (Req_dec_T (Den.pstdR qs) 0) as [E | _]; [rewrite Hp in E; lra|].
    rewrite Hp. cbn [Num.abs_gt3 Num.z_pos].
    assert (Ht : Num.Qltb 0 v = true) by (apply Qltb_R; rewrite H0; exact Hpos).
    rewrite Ht. cbn [andb]. rewrite !Qltb_R, H0.
    rewrite !Q2R_mult, Q2R_minus, Q2R_inject_Z, HmR.
    replace (Q2R 9) with 9%R by (unfold Q2R; simpl; lra).
    split.
    + rewrite <- (sqrt_lt_abs_iff (Q2R v) (IZR q - Den.meanR qs) Hv0).
      unfold Rdiv at 1. rewrite Rabs_mult, Rabs_inv, (Rabs_pos_eq (sqrt (Q2R v))) by lra.
      symmetry. apply (div_gt_iff (Rabs (IZR q - Den.meanR qs)) (sqrt (Q2R v)) 3 Hsq).
    + rewrite (div_gt_iff (IZR q - Den.meanR qs) (sqrt (Q2R v)) 0 Hsq). lra.
  - assert (Hz : Q2R v = 0%R).
    { apply Rle_antisym; [|exact Hv0].
      apply Rnot_lt_le. intros H. rewrite <- H0 in H. apply Qltb_R in H. congruence. }
    destruct (Req_dec_T (Den.pstdR qs) 0) as [_ | E];
      [|exfalso; apply E; rewrite Hp, Hz; apply sqrt_0].
    cbn [Num.abs_gt3 Num.z_pos]. rewrite Rabs_R0.
    split; (split; [discriminate | lra]).
Qed.

Lemma emit_anomaly_fold (now : nat -> Z) (rows : list SaleRecord) (zs : list Num.zscore)
    (idxs : list nat) (acc : list Salesforcast.Anomaly) (t : nat) :
  fst (fold_left (Salesforcast.emit_anomaly now rows zs) idxs (acc, t)) =
  acc ++ emitted now rows zs t idxs.
Proof.
  revert acc t. induction idxs as [|i rest IH]; intros acc t; simpl.
  - rewrite app_nil_r. reflexivity.
  - destruct (nth_error rows i) as [row|]; [|apply IH].
    destruct (nth_error zs i) as [z|]; [|apply IH].
    rewrite IH, <- app_assoc. reflexivity.
Qed.

Lemma emitted_nth (now : nat -> Z) (rows : list SaleRecord) (zs : list Num.zscore)
    (idxs : list nat) (t k i : nat) :
  (forall j, In j idxs -> exists row z, nth_error rows j = Some row /\ nth_error zs j = Some z) ->
  nth_error idxs k = Some i ->
  exists row z,
    nth_error rows i = Some row /\ nth_error zs i = Some z /\
    nth_error (emitted now rows zs t idxs) k =
    Some (Salesforcast.mkAnomaly (dynamic_product_id row) (store_id row) (quantity row)
            (sold_at row) (if Num.z_pos z then High else Low) (now (t + k)%nat)).
Proof.
  revert t k. induction idxs as [|j rest IH]; intros t k Hall Hk.
  - destruct k; discriminate.
  - destruct (Hall j (or_introl eq_refl)) as (row & z & Hr & Hz).
    simpl. rewrite Hr, Hz. destruct k as [|k]; simpl in Hk.
    + injection Hk as <-. exists row, z. rewrite Nat.add_0_r. auto.
    + destruct (IH (S t) k) as (row' & z' & Hr' & Hz' & He); [|exact Hk|].
      { intros j' Hj'. apply Hall. right. exact Hj'. }
      exists row', z'. simpl. rewrite He.
      replace (S t + k)%nat with (t + S k)%nat by lia. auto.
Qed.

Lemma emitted_length (now : nat -> Z) (rows : list SaleRecord) (zs : list Num.zscore)
    (idxs : list nat) (t : nat) :
  (forall j, In j idxs -> exists row z, nth_error rows j = Some row /\ nth_error zs j = Some z) ->
  List.length (emitted now rows zs t idxs) = List.length idxs.
Proof.
  revert t. induction idxs as [|j rest IH]; intros t Hall; simpl; [reflexivity|].
  destruct (Hall j (or_introl eq_refl)) as (row & z & Hr & Hz). rewrite Hr, Hz. simpl.
  f_equal. apply IH. intros j' Hj'. apply Hall. right. exact Hj'.
Qed.

Lemma flagged_position (rows : list SaleRecord) (i : nat) :
  In i (Num.anomaly_indices (Num.z_scores (map quantity rows))) <->
  exists row, nth_error rows i = Some row /\
              Num.abs_gt3 (z_of (map quantity rows) (quantity row)) = true.
Proof.
  rewrite anomaly_indices_picked, picked_from_In, Nat.sub_0_r, z_scores_nth, nth_error_map.
  split.
  - intros [_ (z & Hz & Hp)]. destruct (nth_error rows i) as [row|]; [|discriminate].
    simpl in Hz. injection Hz as <-. exists row. auto.
  - intros (row & Hr & Hp). split; [lia|]. rewrite Hr. simpl. eauto.
Qed.

Lemma flagged_in_range (rows : list SaleRecord) (j : nat) :
  In j (Num.anomaly_indices (Num.z_scores (map quantity rows))) ->
  exists row z, nth_error rows j = Some row /\
                nth_error (Num.z_scores (map quantity rows)) j = Some z.
Proof.
  intros H. apply flagged_position in H. destruct H as (row & Hr & _).
  exists row, (z_of (map quantity rows) (quantity row)). split; [exact Hr|].
  rewrite z_scores_nth, nth_error_map, Hr. reflexivity.
Qed.


(** ** The series 10, 10, 10, 10, 100 *)

Lemma example_stats :
  Den.meanR [10; 10; 10; 10; 100] = 28%R /\ Den.pstdR [10; 10; 10; 10; 100] = 36%R.
Proof.
  assert (Hm : Den.meanR [10; 10; 10; 10; 100] = 28%R).
  { unfold Den.meanR. replace (Num.sumZ [10; 10; 10; 10; 100]) with 140 by reflexivity.
    replace (Num.count [10; 10; 10; 10; 100]) with 5 by reflexivity. lra. }
  split; [exact Hm|].
  unfold Den.pstdR, Den.sq_dev. rewrite Hm.
  replace (Num.count [10; 10; 10; 10; 100]) with 5 by reflexivity.
  unfold Den.sumR. simpl.
  replace ((10 - 28) * (10 - 28) + ((10 - 28) * (10 - 28) + ((10 - 28) * (10 - 28)
            + ((10 - 28) * (10 - 28) + ((100 - 28) * (100 - 28) + 0)))))%R
    with (5 * (36 * 36))%R by lra.
  replace (5 * (36 * 36) / 5)%R with (36 * 36)%R by lra.
  apply sqrt_square. lra.
Qed.

(** C6, as stated, fails: on the series 10, 10, 10, 10, 100 the detector
    returns no anomaly at all, so it does not flag the point 100. *)
Lemma zscore_example_flags_nothing :
  Salesforcast.detect_sales (fun k => Z.of_nat k) example_series = [] /\
  ~ (exists a, Salesforcast.detect_sales (fun k => Z.of_nat k) example_series = [a]).
Proof.
  assert (H : Salesforcast.detect_sales (fun k => Z.of_nat k) example_series = [])
    by (vm_compute; reflexivity).
  split; [exact H|]. rewrite H. intros [a Ha]. discriminate.
Qed.

(** C6, amended.  For a series of rows with the quantities 10, 10, 10, 10,
    100 the z-score detector flags no anomaly: the mean is 28, the
    population standard deviation is 36, so the z-score of the point 100 is
    exactly 2, which is not above 3. *)
Theorem zscore_example_z_is_two (now : nat -> Z) (rows : list SaleRecord)
    (acc : list Salesforcast.Anomaly) (t : nat) :
  map quantity rows = [10; 10; 10; 10; 100] ->
  Salesforcast.detect_series now rows (acc, t) = (acc, t) /\
  Den.zR (map quantity rows) 100 = 2%R.
Proof.
  intros H. split.
  - unfold Salesforcast.detect_series. rewrite H. reflexivity.
  - rewrite H. unfold Den.zR. destruct example_stats as [Hm Hs]. rewrite Hs, Hm.
    destruct (Req_dec_T 36 0) as [E | _]; lra.
Qed.

Lemma zscore_example_z_is_two_witness :
  Salesforcast.detect_series (fun k => Z.of_nat k) example_series ([], 0%nat) = ([], 0%nat) /\
  Den.zR (map quantity example_series) 100 = 2%R.
Proof.
  apply (zscore_example_z_is_two (fun k => Z.of_nat k) example_series [] 0%nat).
  reflexivity.
Defined.

(** ** The pattern analyzer *)

Section Classify.
Variable db : Db.
Variable now : nat -> Z.
Variables hi lo : option Num.surd.

Let restock (st : Recommendations.Patterns * nat) :=
  map rec_bucket (Recommendations.restock_recommendations (fst st)).
Let avoid (st : Recommendations.Patterns * nat) :=
  map rec_bucket (Recommendations.avoid_restock (fst st)).
Let high (st : Recommendations.Patterns * nat) :=
  map rec_bucket (Recommendations.high_demand_periods (fst st)).

Lemma classify_row_buckets (pr : Z * Z) (st : Recommendations.Patterns * nat)
    (row : MonthlyBucket) :
  bucket_pair row = pr ->
  let st' := Recommendations.classify_row db now hi lo pr st row in
  restock st' = restock st ++ filter (is_high hi) [row] /\
  avoid st' = avoid st ++ filter (is_low hi lo) [row] /\
  high st' = high st ++ filter (is_high hi) [row].
Proof.
  intros Hpr. destruct st as [p tick]. destruct row as [pid sid month q].
  unfold bucket_pair in Hpr. simpl in Hpr. subst pr.
  unfold Recommendations.classify_row, restock, avoid, high, is_high, is_low.
  cbn [filter b_quantity b_month fst snd].
  destruct (Num.geb q hi); cbn [negb andb].
  - cbn [fst Recommendations.restock_recommendations Recommendations.avoid_restock
           Recommendations.high_demand_periods].
    rewrite !map_app, app_nil_r. auto.
  - destruct (Num.leb q lo);
      cbn [fst Recommendations.restock_recommendations Recommendations.avoid_restock
             Recommendations.high_demand_periods];
      rewrite ?map_app, ?app_nil_r; auto.
Qed.

Lemma classify_rows_buckets (pr : Z * Z) (rows : list MonthlyBucket)
    (st : Recommendations.Patterns * nat) :
  (forall row, In row rows -> bucket_pair row = pr) ->
  let st' := fold_left (Recommendations.classify_row db now hi lo pr) rows st in
  restock st' = restock st ++ filter (is_high hi) rows /\
  avoid st' = avoid st ++ filter (is_low hi lo) rows /\
  high st' = high st ++ filter (is_high hi) rows.
Proof.
  revert st. induction rows as [|row rest IH]; intros st Hall.
  - simpl. rewrite !app_nil_r. auto.
  - cbn [fold_left].
    destruct (classify_row_buckets pr st row (Hall row (or_introl eq_refl)))
      as (H1 & H2 & H3).
    destruct (IH (Recommendations.classify_row db now hi lo pr st row)
                (fun r Hr => Hall r (or_intror Hr))) as (I1 & I2 & I3).
    cbv zeta in *. rewrite I1, I2, I3, H1, H2, H3, <- !app_assoc.
    change (row :: rest) with ([row] ++ rest). rewrite !filter_app. auto.
Qed.

Lemma rows_of_pair_pair (pr : Z * Z) (monthly : list MonthlyBucket) (row : MonthlyBucket) :
  In row (Frame.rows_of_pair pr monthly) -> bucket_pair row = pr.
Proof.
  unfold Frame.rows_of_pair. rewrite filter_In. intros [_ H]. apply pair_eqb_eq, H.
Qed.

Lemma classify_pairs_buckets (monthly : list MonthlyBucket) (pairs : list (Z * Z))
    (st : Recommendations.Patterns * nat) :
  let visited := flat_map (fun pr => Frame.rows_of_pair pr monthly) pairs in
  let st' := fold_left (Recommendations.classify_pair db now monthly hi lo) pairs st in
  restock st' = restock st ++ filter (is_high hi) visited /\
  avoid st' = avoid st ++ filter (is_low hi lo) visited /\
  high st' = high st ++ filter (is_high hi) visited.
Proof.
  revert st. induction pairs as [|pr rest IH]; intros st.
  - simpl. rewrite !app_nil_r. auto.
  - cbn [fold_left flat_map].
    destruct (classify_rows_buckets pr (Frame.rows_of_pair pr monthly) st
                (rows_of_pair_pair pr monthly)) as (H1 & H2 & H3).
    destruct (IH (Recommendations.classify_pair db now monthly hi lo st pr))
      as (I1 & I2 & I3).
    cbv zeta in *. rewrite I1, I2, I3. unfold Recommendations.classify_pair.
    rewrite H1, H2, H3, <- !app_assoc, !filter_app. auto.
Qed.
End Classify.

(** Every row of the monthly frame is visited once by the two loops. *)

Lemma rows_of_pair_cons (pr : Z * Z) (b : MonthlyBucket) (m : list MonthlyBucket) :
  Frame.rows_of_pair pr (b :: m) =
  if pair_eqb (bucket_pair b) pr then b :: Frame.rows_of_pair pr m
  else Frame.rows_of_pair pr m.
Proof. reflexivity. Qed.

Lemma visit_other (b : MonthlyBucket) (m : list MonthlyBucket) (pairs : list (Z * Z)) :
  ~ In (bucket_pair b) pairs ->
  flat_map (fun pr => Frame.rows_of_pair pr (b :: m)) pairs =
  flat_map (fun pr => Frame.rows_of_pair pr m) pairs.
Proof.
  induction pairs as [|pr rest IH]; intros Hn; [reflexivity|].
  cbn [flat_map]. rewrite rows_of_pair_cons.
  destruct (pair_eqb (bucket_pair b) pr) eqn:E.
  - apply pair_eqb_eq in E. exfalso. apply Hn. left. auto.
  - rewrite IH; [reflexivity|]. intros H. apply Hn. right. exact H.
Qed.

Lemma visit_cons (b : MonthlyBucket) (m : list MonthlyBucket) (pairs : list (Z * Z)) :
  NoDup pairs -> In (bucket_pair b) pairs ->
  Permutation (flat_map (fun pr => Frame.rows_of_pair pr (b :: m)) pairs)
              (b :: flat_map (fun pr => Frame.rows_of_pair pr m) pairs).
Proof.
  induction pairs as [|pr rest IH]; intros Hnd Hin; [destruct Hin|].
  inversion Hnd as [|? ? Hpr Hrest]; subst.
  cbn [flat_map]. rewrite rows_of_pair_cons.
  destruct (pair_eqb (bucket_pair b) pr) eqn:E.
  - apply pair_eqb_eq in E. subst pr. rewrite (visit_other b m rest Hpr). reflexivity.
  - assert (Hin' : In (bucket_pair b) rest).
    { destruct Hin as [-> | H]; [rewrite pair_eqb_refl in E; discriminate | exact H]. }
    rewrite (IH Hrest Hin'). symmetry. apply Permutation_middle.
Qed.

Lemma visit_all (m : list MonthlyBucket) (pairs : list (Z * Z)) :
  NoDup pairs -> (forall b, In b m -> In (bucket_pair b) pairs) ->
  Permutation (flat_map (fun pr => Frame.rows_of_pair pr m) pairs) m.
Proof.
  intros Hnd. induction m as [|b rest IH]; intros Hall.
  - induction pairs as [|pr ps IHp]; [reflexivity|].
    inversion Hnd; subst. simpl. apply IHp; [assumption | intros ? []].
  - rewrite (visit_cons b rest pairs Hnd (Hall b (or_introl eq_refl))).
    constructor. apply IH. intros b' Hb'. apply Hall. right. exact Hb'.
Qed.

Lemma filter_perm {A : Type} (f : A -> bool) (l1 l2 : list A) :
  Permutation l1 l2 -> Permutation (filter f l1) (filter f l2).
Proof.
  induction 1 as [|x l l' _ IH|x y l|l l' l'' _ IH1 _ IH2]; simpl.
  - constructor.
  - destruct (f x); [constructor|]; exact IH.
  - destruct (f x), (f y); try reflexivity. apply perm_swap.
  - etransitivity; eassumption.
Qed.

(** What the analyzer returns on a monthly frame: the restock and the
    high-demand recommendations are, one each, about the buckets at or above
    the high threshold, and the avoid-restock recommendations are about the
    other buckets at or below the low threshold. *)
Lemma classify_monthly_buckets (db : Db) (now : nat -> Z) (monthly : list MonthlyBucket) :
  let qs := map b_quantity monthly in
  let hi := Num.add_std (Num.mean qs) (Num.std 1 qs) in
  let lo := Num.sub_std (Num.mean qs) (Num.std 1 qs) in
  let p := Recommendations.classify_monthly db now monthly in
  Permutation (map rec_bucket (Recommendations.restock_recommendations p))
              (filter (is_high hi) monthly) /\
  Permutation (map rec_bucket (Recommendations.avoid_restock p))
              (filter (is_low hi lo) monthly) /\
  Permutation (map rec_bucket (Recommendations.high_demand_periods p))
              (filter (is_high hi) monthly).
Proof.
  intros qs hi lo p.
  pose proof (classify_pairs_buckets db now hi lo monthly
                (Frame.drop_duplicates pair_eqb (map bucket_pair monthly))
                (Recommendations.no_patterns, 0%nat)) as H.
  cbv zeta in H. destruct H as (H1 & H2 & H3).
  assert (Hv : Permutation
                 (flat_map (fun pr => Frame.rows_of_pair pr monthly)
                    (Frame.drop_duplicates pair_eqb (map bucket_pair monthly)))
                 monthly).
  { apply visit_all; [apply (drop_duplicates_NoDup pair_eqb pair_eqb_eq)|].
    intros b Hb. apply (drop_duplicates_In pair_eqb pair_eqb_eq). apply in_map, Hb. }
  unfold p, Recommendations.classify_monthly. fold qs. fold hi. fold lo.
  rewrite H1, H2, H3. simpl.
  repeat split; apply filter_perm, Hv.
Qed.

(** The thresholds of a frame of at least two buckets, in the reals. *)
Lemma thresholds_R (qs : list Z) :
  (2 <= List.length qs)%nat ->
  exists hi lo,
    Num.add_std (Num.mean qs) (Num.std 1 qs) = Some hi /\
    Num.sub_std (Num.mean qs) (Num.std 1 qs) = Some lo /\
    surd_wf hi /\ surd_wf lo /\
    Den.surdR hi = (Den.meanR qs + Den.sstdR qs)%R /\
    Den.surdR lo = (Den.meanR qs - Den.sstdR qs)%R.
Proof.
  intros Hn.
  assert (Hne : qs <> []) by (destruct qs; [simpl in Hn; lia | discriminate]).
  destruct (mean_some qs Hne) as (m & Hm & HmR).
  destruct (std_some 1 qs) as (v & Hs & HvR & Hv0); [unfold Num.count; lia | lia |].
  exists (Num.Plus m (Num.Sqrt v)), (Num.Minus m (Num.Sqrt v)).
  rewrite Hm, Hs. simpl. unfold Den.rootR, Den.sstdR. simpl. rewrite HvR, HmR.
  repeat split; try reflexivity; rewrite <- HvR; exact Hv0.
Qed.

Lemma thresholds_nan (qs : list Z) :
  (List.length qs < 2)%nat ->
  Num.std 1 qs = None /\
  Num.add_std (Num.mean qs) (Num.std 1 qs) = None /\
  Num.sub_std (Num.mean qs) (Num.std 1 qs) = None.
Proof.
  intros Hn. assert (Hs : Num.std 1 qs = None) by (apply std_none; unfold Num.count; lia).
  rewrite Hs. unfold Num.add_std, Num.sub_std. destruct (Num.mean qs); auto.
Qed.

(** Counting the recommendations of one bucket. *)

Lemma filter_comm {A : Type} (f g : A -> bool) (l : list A) :
  filter f (filter g l) = filter g (filter f l).
Proof.
  induction l as [|x t IH]; simpl; [reflexivity|].
  destruct (f x) eqn:Ef, (g x) eqn:Eg; simpl; rewrite ?Ef, ?Eg, IH; reflexivity.
Qed.

Lemma filter_own_key (m : list MonthlyBucket) (b : MonthlyBucket) :
  NoDup (map bucket_key m) -> In b m ->
  filter (fun x => key_eqb (bucket_key x) (bucket_key b)) m = [b].
Proof.
  induction m as [|x t IH]; intros Hnd Hin; [destruct Hin|].
  inversion Hnd as [|? ? Hx Ht]; subst. cbn [filter].
  destruct Hin as [-> | Hin].
  - rewrite key_eqb_refl. f_equal.
    assert (Hnone : forall y, In y t -> key_eqb (bucket_key y) (bucket_key b) = false).
    { intros y Hy. apply key_eqb_neq. intros E. apply Hx. rewrite <- E.
      apply in_map, Hy. }
    clear -Hnone. induction t as [|y t IH]; [reflexivity|].
    cbn [filter]. rewrite (Hnone y (or_introl eq_refl)). apply IH.
    intros z Hz. apply Hnone. right. exact Hz.
  - destruct (key_eqb (bucket_key x) (bucket_key b)) eqn:E.
    + apply key_eqb_eq in E. exfalso. apply Hx. rewrite E. apply in_map, Hin.
    + apply IH; assumption.
Qed.

Lemma count_for_map (b : MonthlyBucket) (l : list Recommendations.Recommendation) :
  count_for b l =
  List.length (filter (fun x => key_eqb (bucket_key x) (bucket_key b)) (map rec_bucket l)).
Proof.
  unfold count_for. induction l as [|r t IH]; [reflexivity|].
  cbn [map filter]. destruct (key_eqb (bucket_key (rec_bucket r)) (bucket_key b));
    cbn [List.length]; rewrite IH; reflexivity.
Qed.

Lemma count_for_selected (f : MonthlyBucket -> bool) (m : list MonthlyBucket)
    (b : MonthlyBucket) (l : list Recommendations.Recommendation) :
  Permutation (map rec_bucket l) (filter f m) ->
  NoDup (map bucket_key m) -> In b m ->
  count_for b l = if f b then 1%nat else 0%nat.
Proof.
  intros Hp Hnd Hin. rewrite count_for_map.
  rewrite (Permutation_length
             (filter_perm (fun x => key_eqb (bucket_key x) (bucket_key b)) _ _ Hp)).
  rewrite filter_comm, (filter_own_key m b Hnd Hin). cbn [filter].
  destruct (f b); reflexivity.
Qed.

(** The counts of the three lists for a bucket of the aggregated frame. *)
Lemma analyze_counts (db : Db) (now : nat -> Z) (sales : list SaleRecord) (b : MonthlyBucket) :
  In b (Frame.groupby_sum sales) ->
  let qs := map b_quantity (Frame.groupby_sum sales) in
  let hi := Num.add_std (Num.mean qs) (Num.std 1 qs) in
  let lo := Num.sub_std (Num.mean qs) (Num.std 1 qs) in
  let p := Recommendations.analyze_sales db now sales in
  count_for b (Recommendations.restock_recommendations p) = (if is_high hi b then 1 else 0)%nat /\
  count_for b (Recommendations.high_demand_periods p) = (if is_high hi b then 1 else 0)%nat /\
  count_for b (Recommendations.avoid_restock p) = (if is_low hi lo b then 1 else 0)%nat.
Proof.
  intros Hb qs hi lo p.
  assert (Hp : p = Recommendations.classify_monthly db now (Frame.groupby_sum sales)).
  { unfold p, Recommendations.analyze_sales. destruct sales; [destruct Hb | reflexivity]. }
  destruct (classify_monthly_buckets db now (Frame.groupby_sum sales)) as (H1 & H2 & H3).
  rewrite Hp. pose proof (groupby_sum_NoDup sales) as Hnd.
  repeat split; eapply count_for_selected; eassumption.
Qed.

Lemma emitted_for_tests (db : Db) (now : nat -> Z) (sales : list SaleRecord)
    (b : MonthlyBucket) :
  In b (Frame.groupby_sum sales) ->
  let qs := map b_quantity (Frame.groupby_sum sales) in
  let hi := Num.add_std (Num.mean qs) (Num.std 1 qs) in
  let lo := Num.sub_std (Num.mean qs) (Num.std 1 qs) in
  emitted_for db now sales b =
  if is_high hi b then (1, 1, 0)%nat
  else if Num.leb (b_quantity b) lo then (0, 0, 1)%nat else (0, 0, 0)%nat.
Proof.
  intros Hb qs hi lo. destruct (analyze_counts db now sales b Hb) as (H1 & H2 & H3).
  unfold emitted_for. fold qs in H1, H2, H3. fold hi in H1, H2, H3. fold lo in H3.
  rewrite H1, H2, H3. unfold is_low, is_high.
  destruct (Num.geb (b_quantity b) hi); [reflexivity|].
  destruct (Num.leb (b_quantity b) lo); reflexivity.
Qed.

Lemma flat_sales_stats :
  map b_quantity (Frame.groupby_sum flat_sales) = [5; 5] /\
  Den.meanR [5; 5] = 5%R /\ Den.sstdR [5; 5] = 0%R.
Proof.
  split; [reflexivity|].
  assert (Hm : Den.meanR [5; 5] = 5%R).
  { unfold Den.meanR. replace (Num.sumZ [5; 5]) with 10 by reflexivity.
    replace (Num.count [5; 5]) with 2 by reflexivity. lra. }
  split; [exact Hm|].
  unfold Den.sstdR, Den.sq_dev. rewrite Hm.
  replace (Num.count [5; 5] - 1) with 1 by reflexivity.
  unfold Den.sumR. simpl.
  replace (((5 - 5) * (5 - 5) + ((5 - 5) * (5 - 5) + 0)) / 1)%R with 0%R by lra.
  apply sqrt_0.
Qed.






Lemma filter_none {A : Type} (f : A -> bool) (l : list A) :
  (forall x, f x = false) -> filter f l = [].
Proof.
  intros Hf. induction l as [|x t IH]; [reflexivity|]. simpl. rewrite Hf. exact IH.
Qed.

(** C10. When the aggregation of the input yields exactly one bucket, the
    standard deviation of the bucket quantities is NaN and the analyzer
    returns no recommendation of any kind. *)
Theorem single_bucket_no_patterns (db : Db) (now : nat -> Z) (sales : list SaleRecord) :
  List.length (Frame.groupby_sum sales) = 1%nat ->
  sales <> [] /\
  Num.std 1 (map b_quantity (Frame.groupby_sum sales)) = None /\
  Recommendations.analyze_sales db now sales = Recommendations.no_patterns.
Proof.
  intros Hn.
  assert (Hne : sales <> []) by (intros ->; discriminate Hn).
  destruct (thresholds_nan (map b_quantity (Frame.groupby_sum sales)))
    as (Hs & Hhi & Hlo); [rewrite length_map; lia|].
  split; [exact Hne|]. split; [exact Hs|].
  assert (Hp : Recommendations.analyze_sales db now sales =
               Recommendations.classify_monthly db now (Frame.groupby_sum sales)).
  { unfold Recommendations.analyze_sales. destruct sales; [congruence | reflexivity]. }
  rewrite Hp.
  destruct (classify_monthly_buckets db now (Frame.groupby_sum sales)) as (H1 & H2 & H3).
  cbv zeta in H1, H2, H3. rewrite Hhi in H1, H2, H3. rewrite Hlo in H2.
  rewrite (filter_none (is_high None)) in H1, H3 by reflexivity.
  rewrite (filter_none (is_low None None)) in H2 by reflexivity.
  apply Permutation_sym, Permutation_nil, map_eq_nil in H1.
  apply Permutation_sym, Permutation_nil, map_eq_nil in H2.
  apply Permutation_sym, Permutation_nil, map_eq_nil in H3.
  destruct (Recommendations.classify_monthly db now (Frame.groupby_sum sales)) as [r a h].
  simpl in H1, H2, H3. subst. reflexivity.
Qed.

Lemma single_bucket_no_patterns_witness :
  [mkSale 7 3 40 0; mkSale 7 3 2 86400] <> [] /\
  Num.std 1 (map b_quantity (Frame.groupby_sum [mkSale 7 3 40 0; mkSale 7 3 2 86400])) = None /\
  Recommendations.analyze_sales empty_store (fun k => Z.of_nat k)
    [mkSale 7 3 40 0; mkSale 7 3 2 86400] = Recommendations.no_patterns.
Proof.
  apply (single_bucket_no_patterns empty_store (fun k => Z.of_nat k)
           [mkSale 7 3 40 0; mkSale 7 3 2 86400]).
  reflexivity.
Defined.

(** ** Empty input *)

(** C5 fails on the code of salesforcast.py.  When the record store answers
    with no rows, the aggregation is empty and the functions of
    recommendations.py return empty outputs, but [forecast_demand] and the
    z-score [detect_anomalies] raise [KeyError]: the frame built from no rows
    has no column. *)
Theorem empty_input_outputs (now : nat -> Z) :
  Frame.groupby_sum [] = [] /\
  Recommendations.detect_anomalies empty_store now all_inliers PNone = Ok [] /\
  Recommendations.analyze_sales_patterns empty_store now PNone
    = Ok Recommendations.no_patterns /\
  Salesforcast.forecast_demand empty_store now = Raise (KeyError "sold_at") /\
  Salesforcast.detect_anomalies empty_store now = Raise (KeyError "sold_at").
Proof. repeat split. Qed.

(** ** The recommendations endpoint *)




(** ** Two runs of the anomaly detectors *)

Lemma fold_left_related {S T X : Type} (R : S -> T -> Prop)
    (f : S -> X -> S) (g : T -> X -> T) (l : list X) (s : S) (t : T) :
  (forall s t x, R s t -> R (f s x) (g t x)) ->
  R s t -> R (fold_left f l s) (fold_left g l t).
Proof.
  intros Hstep. revert s t. induction l as [|x rest IH]; intros s t H; simpl; [exact H|].
  apply IH, Hstep, H.
Qed.

Lemma zscore_pair_related (now1 now2 : nat -> Z) (sales : list SaleRecord)
    (s t : list Salesforcast.Anomaly * nat) (pr : Z * Z) :
  same_zscore_flags s t ->
  same_zscore_flags (Salesforcast.detect_pair now1 sales s pr)
                    (Salesforcast.detect_pair now2 sales t pr).
Proof.
  intros H. unfold Salesforcast.detect_pair, Salesforcast.detect_series.
  destruct (List.length (map quantity (Frame.sales_of_pair pr sales)) <? 3)%nat; [exact H|].
  apply fold_left_related; [|exact H].
  clear. intros [a1 t1] [a2 t2] idx H. unfold same_zscore_flags in *. simpl in *.
  destruct (nth_error (Frame.sales_of_pair pr sales) idx); [|exact H].
  destruct (nth_error _ idx); [|exact H].
  simpl. rewrite !map_app, H. reflexivity.
Qed.

Lemma density_pair_related (db : Db) (fit_predict : list Z -> result (list Z))
    (now1 now2 : nat -> Z) (sales : list SaleRecord)
    (s t : list Recommendations.Anomaly * nat) (pr : Z * Z) :
  same_density_flags s t ->
  same_density_flags (Recommendations.detect_pair db now1 fit_predict sales s pr)
                     (Recommendations.detect_pair db now2 fit_predict sales t pr).
Proof.
  intros H. unfold Recommendations.detect_pair.
  destruct (List.length (Frame.sales_of_pair pr sales) <? 3)%nat; [exact H|].
  destruct (500 <? List.length (Frame.sales_of_pair pr sales))%nat; [exact H|].
  destruct (fit_predict _) as [labels|]; [|exact H].
  destruct (negb _); [exact H|].
  apply fold_left_related; [|exact H].
  clear. intros [a1 t1] [a2 t2] idx H. unfold same_density_flags in *. simpl in *.
  destruct (nth_error (Frame.sales_of_pair pr sales) idx); [|exact H].
  simpl. rewrite !map_app, H. reflexivity.
Qed.

Lemma zscore_pair_stamped (now : nat -> Z) (sales : list SaleRecord)
    (s : list Salesforcast.Anomaly * nat) (pr : Z * Z) :
  zscore_stamped now s -> zscore_stamped now (Salesforcast.detect_pair now sales s pr).
Proof.
  intros H. unfold Salesforcast.detect_pair, Salesforcast.detect_series.
  destruct (List.length (map quantity (Frame.sales_of_pair pr sales)) <? 3)%nat; [exact H|].
  revert s H. induction (Num.anomaly_indices _) as [|idx rest IH]; intros s H; [exact H|].
  cbn [fold_left]. apply IH. clear IH. destruct s as [acc t]. destruct H as [Ht Hk].
  simpl in Ht. subst t. unfold Salesforcast.emit_anomaly.
  destruct (nth_error (Frame.sales_of_pair pr sales) idx); [|split; [reflexivity | exact Hk]].
  destruct (nth_error _ idx); [|split; [reflexivity | exact Hk]].
  split; simpl.
  - rewrite length_app. simpl. lia.
  - intros k a Ha. destruct (Nat.lt_ge_cases k (List.length acc)) as [Hlt | Hge].
    + rewrite nth_error_app1 in Ha by exact Hlt. apply (Hk k a Ha).
    + rewrite nth_error_app2 in Ha by exact Hge.
      destruct (k - List.length acc)%nat as [|d] eqn:E.
      * simpl in Ha. injection Ha as <-. simpl. f_equal. lia.
      * simpl in Ha. destruct d; discriminate.
Qed.

(** C8, as stated, fails: two runs of the z-score detector on the same
    eleven sales, one with the clock at 0 and one with the clock at 1, return
    different entities. *)
Lemma two_runs_differ_in_time_stamp :
  Salesforcast.detect_sales (fun _ => 0) outlier_sales
    = [Salesforcast.mkAnomaly 1 1 1000 0 High 0] /\
  Salesforcast.detect_sales (fun _ => 1) outlier_sales
    = [Salesforcast.mkAnomaly 1 1 1000 0 High 1] /\
  Salesforcast.detect_sales (fun _ => 0) outlier_sales
    <> Salesforcast.detect_sales (fun _ => 1) outlier_sales.
Proof.
  assert (H0 : Salesforcast.detect_sales (fun _ => 0) outlier_sales
               = [Salesforcast.mkAnomaly 1 1 1000 0 High 0]) by (vm_compute; reflexivity).
  assert (H1 : Salesforcast.detect_sales (fun _ => 1) outlier_sales
               = [Salesforcast.mkAnomaly 1 1 1000 0 High 1]) by (vm_compute; reflexivity).
  split; [exact H0|]. split; [exact H1|]. rewrite H0, H1. discriminate.
Qed.

(** C8, amended.  On the same sales, two runs of the z-score detector, and
    two runs of the density detector with the same record store and the same
    seeded forest, flag the same points with the same anomaly types and
    return entities that agree in every field but the time stamp
    [created_at]; the time stamp of the k-th entity of a z-score run is the
    k-th reading of the clock of that run. *)
Theorem two_runs_same_flags (now1 now2 : nat -> Z) (sales : list SaleRecord) :
  map zscore_flag (Salesforcast.detect_sales now1 sales)
    = map zscore_flag (Salesforcast.detect_sales now2 sales) /\
  (forall (db : Db) (fit_predict : list Z -> result (list Z)),
     map density_flag (Recommendations.detect_sales db now1 fit_predict sales)
       = map density_flag (Recommendations.detect_sales db now2 fit_predict sales)) /\
  (forall k a, nth_error (Salesforcast.detect_sales now1 sales) k = Some a ->
               Salesforcast.a_created_at a = now1 k).
Proof.
  split; [|split].
  - unfold Salesforcast.detect_sales.
    apply (fold_left_related same_zscore_flags); [|reflexivity].
    intros s t pr H. apply zscore_pair_related, H.
  - intros db fit_predict. unfold Recommendations.detect_sales.
    destruct sales as [|r rest]; [reflexivity|].
    apply (fold_left_related same_density_flags); [|reflexivity].
    intros s t pr H. apply density_pair_related, H.
  - unfold Salesforcast.detect_sales.
    assert (H : zscore_stamped now1
                  (fold_left (Salesforcast.detect_pair now1 sales)
                     (Frame.drop_duplicates pair_eqb (map sale_pair sales)) ([], 0%nat))).
    { generalize (Frame.drop_duplicates pair_eqb (map sale_pair sales)).
      assert (H0 : zscore_stamped now1 ([], 0%nat)).
      { split; [reflexivity|]. intros k a Hk. destruct k; discriminate. }
      revert H0. generalize (@nil Salesforcast.Anomaly, 0%nat).
      intros s Hs l. revert s Hs. induction l as [|pr rest IH]; intros s Hs; [exact Hs|].
      simpl. apply IH, zscore_pair_stamped, Hs. }
    exact (proj2 H).
Qed.

(** ** The regression line *)

Section LeastSquares.
Local Open Scope R_scope.

Lemma sumR_cons (x : R) (l : list R) : Den.sumR (x :: l) = x + Den.sumR l.
Proof. reflexivity. Qed.

Lemma sseR_expand (pts : list (Z * Z)) (a b a0 b0 : R) :
  sseR a b pts =
  sseR a0 b0 pts
  + 2 * (a0 - a) * Den.sumR (map (fun p => IZR (snd p) - (a0 + b0 * IZR (fst p))) pts)
  + 2 * (b0 - b)
      * Den.sumR (map (fun p => IZR (fst p) * (IZR (snd p) - (a0 + b0 * IZR (fst p)))) pts)
  + Den.sumR (map (fun p => ((a0 - a) + (b0 - b) * IZR (fst p))
                            * ((a0 - a) + (b0 - b) * IZR (fst p))) pts).
Proof.
  unfold sseR. induction pts as [|[x y] t IH]; cbn [map].
  - unfold Den.sumR. simpl. ring.
  - rewrite !sumR_cons, IH. cbn [fst snd]. ring.
Qed.

Lemma IZR_sumZ (l : list Z) : IZR (Num.sumZ l) = Den.sumR (map IZR l).
Proof.
  induction l as [|x t IH]; [reflexivity|].
  cbn [map]. rewrite sumR_cons, <- IH. unfold Num.sumZ. cbn [fold_right].
  apply plus_IZR.
Qed.

Lemma residual_sum (pts : list (Z * Z)) (a0 b0 : R) :
  Den.sumR (map (fun p => IZR (snd p) - (a0 + b0 * IZR (fst p))) pts) =
  IZR (Num.sumZ (map snd pts)) - IZR (Num.count pts) * a0
  - b0 * IZR (Num.sumZ (map fst pts)).
Proof.
  rewrite !IZR_sumZ. unfold Num.count.
  induction pts as [|[x y] t IH]; cbn [map List.length].
  - unfold Den.sumR. simpl. ring.
  - rewrite !sumR_cons, IH, Nat2Z.inj_succ, succ_IZR. cbn [fst snd]. ring.
Qed.

Lemma residual_moment (pts : list (Z * Z)) (a0 b0 : R) :
  Den.sumR (map (fun p => IZR (fst p) * (IZR (snd p) - (a0 + b0 * IZR (fst p)))) pts) =
  IZR (Num.sumZ (map (fun p => (fst p * snd p)%Z) pts))
  - a0 * IZR (Num.sumZ (map fst pts))
  - b0 * IZR (Num.sumZ (map (fun p => (fst p * fst p)%Z) pts)).
Proof.
  rewrite !IZR_sumZ.
  induction pts as [|[x y] t IH]; cbn [map].
  - unfold Den.sumR. simpl. ring.
  - rewrite !sumR_cons, IH, !mult_IZR. cbn [fst snd]. ring.
Qed.

Lemma squares_nonneg (pts : list (Z * Z)) (da db : R) :
  0 <= Den.sumR (map (fun p => (da + db * IZR (fst p)) * (da + db * IZR (fst p))) pts).
Proof.
  apply sumR_nonneg. intros x Hx. apply in_map_iff in Hx.
  destruct Hx as (p & <- & _). apply Rle_0_sqr.
Qed.

Lemma squares_zero (pts : list (Z * Z)) (da db : R) (p : Z * Z) :
  Den.sumR (map (fun p => (da + db * IZR (fst p)) * (da + db * IZR (fst p))) pts) = 0 ->
  In p pts -> da + db * IZR (fst p) = 0.
Proof.
  induction pts as [|q t IH]; intros Hs Hin; [destruct Hin|].
  cbn [map] in Hs. rewrite sumR_cons in Hs.
  pose proof (squares_nonneg t da db) as Ht.
  pose proof (Rle_0_sqr (da + db * IZR (fst q))) as Hq. unfold Rsqr in Hq.
  destruct Hin as [-> | Hin].
  - assert (H : (da + db * IZR (fst p)) * (da + db * IZR (fst p)) = 0) by lra.
    destruct (Rmult_integral _ _ H) as [E | E]; exact E.
  - apply IH; [lra | exact Hin].
Qed.
End LeastSquares.

(** The month indices 0, 1, ..., n-1 and their sums. *)

Lemma indices_length (ys : list Z) : List.length (Num.indices ys) = List.length ys.
Proof. unfold Num.indices. rewrite length_map, length_seq. reflexivity. Qed.

Lemma index_sums (n : nat) :
  2 * Num.sumZ (map Z.of_nat (seq 0 n)) = Z.of_nat n * (Z.of_nat n - 1) /\
  6 * Num.sumZ (map (fun x => x * x) (map Z.of_nat (seq 0 n)))
  = (Z.of_nat n - 1) * Z.of_nat n * (2 * Z.of_nat n - 1).
Proof.
  induction n as [|n [IH1 IH2]]; [split; reflexivity|].
  rewrite seq_S, !map_app, !sumZ_app. cbn [map Nat.add]. unfold Num.sumZ at 2 4.
  cbn [fold_right]. rewrite Nat2Z.inj_succ. split; nia.
Qed.

Lemma index_spread (n : nat) :
  (2 <= n)%nat ->
  0 < Z.of_nat n * Num.sumZ (map (fun x => x * x) (map Z.of_nat (seq 0 n)))
      - Num.sumZ (map Z.of_nat (seq 0 n)) * Num.sumZ (map Z.of_nat (seq 0 n)).
Proof.
  intros Hn. destruct (index_sums n) as [H1 H2].
  set (sx := Num.sumZ (map Z.of_nat (seq 0 n))) in *.
  set (sxx := Num.sumZ (map (fun x => x * x) (map Z.of_nat (seq 0 n)))) in *.
  assert (Hz : 2 <= Z.of_nat n) by lia.
  assert (H12 : 12 * (Z.of_nat n * sxx - sx * sx)
                = Z.of_nat n * Z.of_nat n * (Z.of_nat n - 1) * (Z.of_nat n + 1)) by nia.
  assert (0 < Z.of_nat n * Z.of_nat n * (Z.of_nat n - 1) * (Z.of_nat n + 1)) by nia.
  lia.
Qed.

Lemma map_fst_combine_eq {A B : Type} (xs : list A) (ys : list B) :
  List.length xs = List.length ys -> map fst (combine xs ys) = xs.
Proof.
  revert ys. induction xs as [|x t IH]; intros [|y u] H; simpl in *; try congruence.
  f_equal. apply IH. lia.
Qed.

Lemma map_snd_combine_eq {A B : Type} (xs : list A) (ys : list B) :
  List.length xs = List.length ys -> map snd (combine xs ys) = ys.
Proof.
  revert ys. induction xs as [|x t IH]; intros [|y u] H; simpl in *; try congruence.
  f_equal. apply IH. lia.
Qed.

Lemma points_fst (ys : list Z) : map fst (points ys) = Num.indices ys.
Proof. apply map_fst_combine_eq, indices_length. Qed.

Lemma points_snd (ys : list Z) : map snd (points ys) = ys.
Proof. apply map_snd_combine_eq, indices_length. Qed.

Lemma points_count (ys : list Z) : Num.count (points ys) = Num.count ys.
Proof.
  unfold Num.count, points. rewrite length_combine, indices_length, Nat.min_id. reflexivity.
Qed.

Lemma points_sxx (ys : list Z) :
  Num.sumZ (map (fun p => fst p * fst p) (points ys))
  = Num.sumZ (map (fun x => x * x) (Num.indices ys)).
Proof. rewrite <- (points_fst ys), map_map. reflexivity. Qed.

Lemma sse_R (a b : Q) (ys : list Z) :
  Q2R (sse a b ys) = sseR (Q2R a) (Q2R b) (points ys).
Proof.
  unfold sse, sseR. fold (points ys). rewrite Q2R_sumQ, map_map. f_equal.
  apply map_ext. intros p. cbv zeta.
  rewrite Q2R_mult, Q2R_minus, Q2R_plus, Q2R_mult, !Q2R_inject_Z. reflexivity.
Qed.

(** The fitted line solves the normal equations. *)
Lemma linear_fit_normal (ys : list Z) :
  (2 <= List.length ys)%nat ->
  let a0 := Q2R (snd (Num.linear_fit ys)) in
  let b0 := Q2R (fst (Num.linear_fit ys)) in
  (IZR (Num.sumZ (map snd (points ys))) - IZR (Num.count (points ys)) * a0
   - b0 * IZR (Num.sumZ (map fst (points ys))) = 0)%R /\
  (IZR (Num.sumZ (map (fun p => (fst p * snd p)%Z) (points ys)))
   - a0 * IZR (Num.sumZ (map fst (points ys)))
   - b0 * IZR (Num.sumZ (map (fun p => (fst p * fst p)%Z) (points ys))) = 0)%R.
Proof.
  intros Hn. rewrite points_snd, points_fst, points_count, points_sxx.
  unfold Num.linear_fit. fold (points ys). cbn [fst snd].
  set (n := Num.count ys).
  set (sx := Num.sumZ (Num.indices ys)).
  set (sy := Num.sumZ ys).
  set (sxy := Num.sumZ (map (fun p => fst p * snd p) (points ys))).
  set (sxx := Num.sumZ (map (fun x => x * x) (Num.indices ys))).
  assert (Hn0 : n <> 0) by (unfold n, Num.count; lia).
  assert (Hd : 0 < n * sxx - sx * sx).
  { unfold n, sxx, sx, Num.indices, Num.count. apply index_spread, Hn. }
  assert (Hd0 : n * sxx - sx * sx <> 0) by lia.
  rewrite !Q2R_div by (apply inject_Z_nonzero; assumption).
  rewrite Q2R_minus, Q2R_mult, !Q2R_div by (apply inject_Z_nonzero; assumption).
  rewrite !Q2R_inject_Z, !minus_IZR, !mult_IZR.
  assert (HnR : IZR n <> 0%R) by (apply not_0_IZR; exact Hn0).
  assert (HdR : (IZR n * IZR sxx - IZR sx * IZR sx)%R <> 0%R).
  { rewrite <- !mult_IZR, <- minus_IZR. apply not_0_IZR. exact Hd0. }
  cbv zeta. split; field; auto.
Qed.

Lemma sseR_at_fit (ys : list Z) (a b : R) :
  (2 <= List.length ys)%nat ->
  let a0 := Q2R (snd (Num.linear_fit ys)) in
  let b0 := Q2R (fst (Num.linear_fit ys)) in
  sseR a b (points ys) =
  (sseR a0 b0 (points ys)
   + Den.sumR (map (fun p => ((a0 - a) + (b0 - b) * IZR (fst p))
                             * ((a0 - a) + (b0 - b) * IZR (fst p))) (points ys)))%R.
Proof.
  intros Hn a0 b0. destruct (linear_fit_normal ys Hn) as [H0 H1].
  fold a0 in H0, H1. fold b0 in H0, H1.
  rewrite (sseR_expand (points ys) a b a0 b0), residual_sum, residual_moment, H0, H1.
  ring.
Qed.

(** The fitted line is the least-squares line, and the only one. *)
Lemma linear_fit_least_squares (ys : list Z) :
  (2 <= List.length ys)%nat ->
  least_squares (snd (Num.linear_fit ys)) (fst (Num.linear_fit ys)) ys.
Proof.
  intros Hn a b. apply Rle_Qle. rewrite !sse_R.
  rewrite (sseR_at_fit ys (Q2R a) (Q2R b) Hn). cbv zeta.
  pose proof (squares_nonneg (points ys)
                (Q2R (snd (Num.linear_fit ys)) - Q2R a)
                (Q2R (fst (Num.linear_fit ys)) - Q2R b)) as H.
  lra.
Qed.

Lemma points_first_two (ys : list Z) :
  (2 <= List.length ys)%nat ->
  exists y0 y1, In (0, y0) (points ys) /\ In (1, y1) (points ys).
Proof.
  destruct ys as [|y0 [|y1 t]]; simpl; try lia. intros _.
  exists y0, y1. unfold points, Num.indices. simpl. auto.
Qed.

Lemma least_squares_unique (ys : list Z) (a b : Q) :
  (2 <= List.length ys)%nat ->
  least_squares a b ys ->
  (a == snd (Num.linear_fit ys))%Q /\ (b == fst (Num.linear_fit ys))%Q.
Proof.
  intros Hn Hls.
  pose proof (Hls (snd (Num.linear_fit ys)) (fst (Num.linear_fit ys))) as Hle.
  apply Qle_Rle in Hle. rewrite !sse_R in Hle.
  rewrite (sseR_at_fit ys (Q2R a) (Q2R b) Hn) in Hle. cbv zeta in Hle.
  set (da := (Q2R (snd (Num.linear_fit ys)) - Q2R a)%R) in *.
  set (db := (Q2R (fst (Num.linear_fit ys)) - Q2R b)%R) in *.
  pose proof (squares_nonneg (points ys) da db) as Hnn.
  assert (Hz : Den.sumR (map (fun p => ((da + db * IZR (fst p)) * (da + db * IZR (fst p)))%R)
                           (points ys)) = 0%R) by lra.
  destruct (points_first_two ys Hn) as (y0 & y1 & H0 & H1).
  pose proof (squares_zero (points ys) da db (0, y0) Hz H0) as E0.
  pose proof (squares_zero (points ys) da db (1, y1) Hz H1) as E1.
  cbn [fst] in E0, E1.
  assert (Hda : da = 0%R) by lra.
  assert (Hdb : db = 0%R) by lra.
  unfold da in Hda. unfold db in Hdb.
  split; apply eqR_Qeq; lra.
Qed.

(** ** The order of a series *)

Section InsertionSort.
Context {A : Type} (leb : A -> A -> bool).
Hypothesis leb_total : forall x y, leb x y = true \/ leb y x = true.

Lemma insert_sorted (x : A) (l : list A) :
  Sorted (fun a b => leb a b = true) l ->
  Sorted (fun a b => leb a b = true) (Frame.insert leb x l).
Proof.
  induction l as [|y t IH]; intros Hs; simpl.
  - repeat constructor.
  - destruct (leb x y) eqn:E.
    + constructor; [exact Hs | constructor; exact E].
    + assert (Hyx : leb y x = true) by (destruct (leb_total x y); congruence).
      inversion Hs as [|? ? Ht Hhd]; subst.
      constructor; [apply IH, Ht|].
      destruct t as [|z u]; simpl.
      * constructor. exact Hyx.
      * destruct (leb x z); constructor; [exact Hyx|].
        inversion Hhd; assumption.
Qed.

Lemma sort_sorted (l : list A) : Sorted (fun a b => leb a b = true) (Frame.sort leb l).
Proof.
  induction l as [|x t IH]; simpl; [constructor | apply insert_sorted, IH].
Qed.
End InsertionSort.

Lemma sort_by_month_sorted (rows : list MonthlyBucket) :
  Sorted (fun a b => String.leb (b_month a) (b_month b) = true) (Frame.sort_by_month rows).
Proof.
  apply (sort_sorted (fun a b => String.leb (b_month a) (b_month b))).
  intros x y. apply String.leb_total.
Qed.

(** ** The forecaster *)



(** * Further properties *)

(** ** Sums are conserved by the grouped sums *)

Lemma sumZ_perm (l1 l2 : list Z) : Permutation l1 l2 -> Num.sumZ l1 = Num.sumZ l2.
Proof.
  unfold Num.sumZ. induction 1; simpl; lia.
Qed.

Lemma accumulate_sum (k : key) (q : Z) (g : list (key * Z)) :
  Num.sumZ (map snd (Frame.accumulate k q g)) = Num.sumZ (map snd g) + q.
Proof.
  unfold Num.sumZ. induction g as [|[k' v] rest IH]; simpl; [lia|].
  destruct (key_eqb k k'); simpl; lia.
Qed.

Lemma accumulate_fold_sum (sales : list SaleRecord) (g : list (key * Z)) :
  Num.sumZ (map snd (fold_left (fun groups r =>
                                  Frame.accumulate (sale_key r) (quantity r) groups) sales g))
  = Num.sumZ (map snd g) + Num.sumZ (map quantity sales).
Proof.
  revert g. induction sales as [|r t IH]; intros g; cbn [fold_left map].
  - unfold Num.sumZ. simpl. lia.
  - rewrite IH, accumulate_sum. unfold Num.sumZ. simpl. lia.
Qed.


(** ** Grouped sums on one column and the largest of them *)

Section ColumnGroups.
Context {K : Type} (eqb leb : K -> K -> bool) (column : SaleRecord -> K).
Hypothesis eqb_eq : forall x y, eqb x y = true <-> x = y.

Lemma eqb_same (x : K) : eqb x x = true.
Proof. apply eqb_eq. reflexivity. Qed.

Lemma eqb_differ (x y : K) : eqb x y = false <-> x <> y.
Proof. rewrite <- eqb_eq. destruct (eqb x y); split; congruence. Qed.

Lemma accumulate_by_keys (k : K) (q : Z) (g : list (K * Z)) :
  map fst (Frame.accumulate_by eqb k q g) =
  if Frame.mem eqb k (map fst g) then map fst g else map fst g ++ [k].
Proof.
  induction g as [|[k' v] rest IH]; simpl; [reflexivity|].
  destruct (eqb k k') eqn:E; simpl; [reflexivity|].
  rewrite IH. unfold Frame.mem. destruct (existsb _ _); reflexivity.
Qed.

Lemma accumulate_by_In (k : K) (q : Z) (g : list (K * Z)) (k' : K) (v' : Z) :
  NoDup (map fst g) ->
  In (k', v') (Frame.accumulate_by eqb k q g) ->
  (k' <> k /\ In (k', v') g) \/
  (k' = k /\ ((exists v, In (k, v) g /\ v' = v + q) \/ (~ In k (map fst g) /\ v' = q))).
Proof.
  induction g as [|[k0 v0] rest IH]; simpl; intros Hnd.
  - intros [[= <- <-] | []]. right. split; [reflexivity|]. right. tauto.
  - inversion Hnd as [|? ? Hk0 Hnd']; subst.
    destruct (eqb k k0) eqn:E.
    + apply eqb_eq in E. subst k0. intros [[= <- <-] | H].
      * right. split; [reflexivity|]. left. exists v0. auto.
      * left. split; [|auto]. intros ->. apply Hk0.
        apply (in_map fst) in H. exact H.
    + apply eqb_differ in E. intros [[= <- <-] | H].
      * left. split; [congruence | auto].
      * destruct (IH Hnd' H) as [[Hn Hi] | [-> [[v [Hi ->]] | [Hn ->]]]].
        -- left. auto.
        -- right. split; [reflexivity|]. left. exists v. auto.
        -- right. split; [reflexivity|]. right. split; [|reflexivity].
           intros [He | Hi]; [congruence | exact (Hn Hi)].
Qed.

Lemma column_total_app (k : K) (l1 l2 : list SaleRecord) :
  column_total eqb column k (l1 ++ l2)
  = column_total eqb column k l1 + column_total eqb column k l2.
Proof. unfold column_total. rewrite filter_app, map_app. apply sumZ_app. Qed.

Lemma column_total_absent (k : K) (seen : list SaleRecord) :
  ~ In k (map column seen) -> column_total eqb column k seen = 0.
Proof.
  unfold column_total. induction seen as [|r t IH]; cbn [map filter In]; intros H;
    [reflexivity|].
  destruct (eqb (column r) k) eqn:E.
  - apply eqb_eq in E. tauto.
  - apply IH. tauto.
Qed.

Lemma column_groups_step (g : list (K * Z)) (seen : list SaleRecord) (r : SaleRecord) :
  column_groups eqb column g seen ->
  column_groups eqb column (Frame.accumulate_by eqb (column r) (quantity r) g) (seen ++ [r]).
Proof.
  intros (Hnd & Hv & Hk).
  assert (Hkeys : forall k, In k (map fst (Frame.accumulate_by eqb (column r) (quantity r) g))
                            <-> k = column r \/ In k (map fst g)).
  { intros k. rewrite accumulate_by_keys.
    destruct (Frame.mem eqb (column r) (map fst g)) eqn:E.
    - apply (mem_In eqb eqb_eq) in E. split; [tauto | intros [-> | H]; auto].
    - rewrite in_app_iff. simpl.
      split; [intros [H | [H | []]]; auto | intros [-> | H]; auto]. }
  split; [|split].
  - rewrite accumulate_by_keys.
    destruct (Frame.mem eqb (column r) (map fst g)) eqn:E; [exact Hnd|].
    assert (Hn : ~ In (column r) (map fst g)).
    { rewrite <- (mem_In eqb eqb_eq), E. discriminate. }
    apply NoDup_app; [exact Hnd | repeat constructor; simpl; tauto |].
    intros x Hx [<- | []]. exact (Hn Hx).
  - intros k v Hin. rewrite column_total_app.
    assert (Hone : column_total eqb column k [r]
                   = if eqb (column r) k then quantity r else 0).
    { unfold column_total, Num.sumZ. cbn [filter].
      destruct (eqb (column r) k); cbn [map fold_right]; lia. }
    rewrite Hone.
    destruct (accumulate_by_In _ _ _ _ _ Hnd Hin) as [[Hn Hi] | [-> [[v0 [Hi ->]] | [Hn ->]]]].
    + assert (E : eqb (column r) k = false) by (apply eqb_differ; congruence).
      rewrite E, (Hv _ _ Hi). lia.
    + rewrite eqb_same, (Hv _ _ Hi). reflexivity.
    + rewrite eqb_same, column_total_absent; [reflexivity|]. rewrite <- Hk. exact Hn.
  - intros k. rewrite Hkeys, map_app, in_app_iff, Hk. simpl.
    split; [intros [-> | H]; auto | intros [H | [<- | []]]; auto].
Qed.

Lemma column_groups_fold (l : list SaleRecord) (g : list (K * Z)) (seen : list SaleRecord) :
  column_groups eqb column g seen ->
  column_groups eqb column
    (fold_left (fun groups r => Frame.accumulate_by eqb (column r) (quantity r) groups) l g)
    (seen ++ l).
Proof.
  revert g seen. induction l as [|r t IH]; intros g seen H; simpl.
  - rewrite app_nil_r. exact H.
  - replace (seen ++ r :: t) with ((seen ++ [r]) ++ t) by (rewrite <- app_assoc; reflexivity).
    apply IH, column_groups_step, H.
Qed.

Lemma groupby_column_groups (sales : list SaleRecord) :
  column_groups eqb column (Frame.groupby_column eqb leb column sales) sales.
Proof.
  pose proof (column_groups_fold sales [] []) as H. simpl in H.
  destruct H as (Hnd & Hv & Hk).
  { split; [constructor | split]; [intros k v [] | intros k; simpl; tauto]. }
  unfold Frame.groupby_column.
  set (g := fold_left _ sales []) in *.
  pose proof (sort_perm (fun a b : K * Z => leb (fst a) (fst b)) g) as Hp.
  split; [|split].
  - eapply Permutation_NoDup; [apply Permutation_map, Hp | exact Hnd].
  - intros k v Hin. apply Hv. eapply Permutation_in; [symmetry; exact Hp | exact Hin].
  - intros k. rewrite <- Hk. split; apply Permutation_in; [symmetry|]; apply Permutation_map, Hp.
Qed.

Lemma accumulate_by_sum (k : K) (q : Z) (g : list (K * Z)) :
  Num.sumZ (map snd (Frame.accumulate_by eqb k q g)) = Num.sumZ (map snd g) + q.
Proof.
  unfold Num.sumZ. induction g as [|[k' v] rest IH]; simpl; [lia|].
  destruct (eqb k k'); simpl; lia.
Qed.

Lemma groupby_column_sum (sales : list SaleRecord) :
  Num.sumZ (map snd (Frame.groupby_column eqb leb column sales))
  = Num.sumZ (map quantity sales).
Proof.
  unfold Frame.groupby_column.
  rewrite <- (sumZ_perm _ _ (Permutation_map snd (sort_perm _ _))).
  assert (H : forall g,
             Num.sumZ (map snd (fold_left (fun groups r =>
                                   Frame.accumulate_by eqb (column r) (quantity r) groups)
                                  sales g))
             = Num.sumZ (map snd g) + Num.sumZ (map quantity sales)).
  { induction sales as [|r t IH]; intros g; cbn [fold_left map].
    - unfold Num.sumZ. simpl. lia.
    - rewrite IH, accumulate_by_sum. unfold Num.sumZ. simpl. lia. }
  rewrite H. reflexivity.
Qed.
End ColumnGroups.

Section Largest.
Context {K : Type}.

Lemma value_desc_sorted (series : list (K * Z)) :
  StronglySorted value_desc (Frame.sort (fun a b => snd b <=? snd a) series).
Proof.
  apply Sorted_StronglySorted.
  - intros a b c Hab Hbc. unfold value_desc in *. apply Z.leb_le in Hab, Hbc.
    apply Z.leb_le. lia.
  - apply (sort_sorted (fun a b : K * Z => snd b <=? snd a)).
    intros x y. rewrite !Z.leb_le. lia.
Qed.

Lemma strongly_sorted_app_inv (R : K * Z -> K * Z -> Prop) (l1 l2 : list (K * Z)) :
  StronglySorted R (l1 ++ l2) ->
  StronglySorted R l1 /\ forall x y, In x l1 -> In y l2 -> R x y.
Proof.
  induction l1 as [|a t IH]; simpl; intros H.
  - split; [constructor | intros x y []].
  - inversion H as [|? ? Ht Ha]; subst. destruct (IH Ht) as [H1 H2].
    rewrite Forall_forall in Ha. split.
    + constructor; [exact H1|]. apply Forall_forall. intros x Hx. apply Ha.
      apply in_or_app. left. exact Hx.
    + intros x y [<- | Hx] Hy; [apply Ha, in_or_app; right; exact Hy | apply H2; assumption].
Qed.

Lemma nlargest_facts (n : nat) (series : list (K * Z)) :
  (List.length (Frame.nlargest n series) <= n)%nat /\
  StronglySorted value_desc (Frame.nlargest n series) /\
  (forall x, In x (Frame.nlargest n series) -> In x series) /\
  (NoDup (map fst series) -> NoDup (map fst (Frame.nlargest n series))) /\
  (forall y, In y series -> ~ In y (Frame.nlargest n series) ->
             List.length (Frame.nlargest n series) = n /\
             forall x, In x (Frame.nlargest n series) -> snd y <= snd x).
Proof.
  unfold Frame.nlargest.
  set (sorted := Frame.sort (fun a b : K * Z => snd b <=? snd a) series).
  pose proof (sort_perm (fun a b : K * Z => snd b <=? snd a) series) as Hp. fold sorted in Hp.
  pose proof (value_desc_sorted series) as Hs. fold sorted in Hs.
  rewrite <- (firstn_skipn n sorted) in Hs.
  destruct (strongly_sorted_app_inv _ _ _ Hs) as [Hs1 Hs2].
  split; [apply firstn_le_length|]. split; [exact Hs1|]. split; [|split].
  - intros x Hx. apply (Permutation_in _ (Permutation_sym Hp)).
    rewrite <- (firstn_skipn n sorted). apply in_or_app. left. exact Hx.
  - intros Hnd. assert (Hnd' : NoDup (map fst sorted)).
    { eapply Permutation_NoDup; [apply Permutation_map, Hp | exact Hnd]. }
    rewrite <- (firstn_skipn n sorted), map_app in Hnd'.
    apply NoDup_app_remove_r in Hnd'. exact Hnd'.
  - intros y Hy Hny.
    assert (Hy' : In y (skipn n sorted)).
    { apply (Permutation_in _ Hp) in Hy. rewrite <- (firstn_skipn n sorted) in Hy.
      apply in_app_or in Hy. destruct Hy; [contradiction | assumption]. }
    split.
    + apply firstn_length_le.
      destruct (Nat.le_gt_cases n (List.length sorted)) as [H | H]; [exact H|].
      rewrite skipn_all2 in Hy' by lia. destruct Hy'.
    + intros x Hx. pose proof (Hs2 x y Hx Hy') as H. unfold value_desc in H.
      apply Z.leb_le in H. exact H.
Qed.
End Largest.

(** ** [sales_trends] and [handler] *)

Lemma top_five_of_column (column : SaleRecord -> Z) (sales : list SaleRecord) :
  top_five_of column sales
    (Frame.nlargest 5 (Frame.groupby_column Z.eqb Z.leb column sales)).
Proof.
  destruct (groupby_column_groups Z.eqb Z.leb column Z.eqb_eq sales) as (Hnd & Hv & Hk).
  destruct (nlargest_facts 5 (Frame.groupby_column Z.eqb Z.leb column sales))
    as (Hlen & Hsorted & Hin & Hnodup & Hout).
  split; [exact Hlen|]. split; [exact (Hnodup Hnd)|]. split; [exact Hsorted|]. split.
  - intros k v H. apply Hin in H. split; [|exact (Hv _ _ H)].
    apply Hk. apply (in_map fst) in H. exact H.
  - intros k Hk1 Hk2. apply Hk in Hk1. apply in_map_iff in Hk1.
    destruct Hk1 as ([k0 v0] & E & H0). simpl in E. subst k0.
    assert (Hn : ~ In (k, v0) (Frame.nlargest 5 (Frame.groupby_column Z.eqb Z.leb column sales))).
    { intros H. apply Hk2. apply (in_map fst) in H. exact H. }
    destruct (Hout (k, v0) H0 Hn) as [H5 Hle]. split; [exact H5|].
    intros k' v H. rewrite <- (Hv _ _ H0). exact (Hle (k', v) H).
Qed.




(** ** How large a z-score can be *)

Section ZBound.
Local Open Scope R_scope.

Lemma sumR_app (l1 l2 : list R) : Den.sumR (l1 ++ l2) = Den.sumR l1 + Den.sumR l2.
Proof.
  unfold Den.sumR. induction l1 as [|x t IH]; simpl; [ring | rewrite IH; ring].
Qed.

Lemma dev_sum_app (m : R) (l1 l2 : list Z) :
  dev_sum m (l1 ++ l2) = dev_sum m l1 + dev_sum m l2.
Proof. unfold dev_sum. rewrite map_app. apply sumR_app. Qed.

Lemma dev_squares_app (m : R) (l1 l2 : list Z) :
  dev_squares m (l1 ++ l2) = dev_squares m l1 + dev_squares m l2.
Proof. unfold dev_squares. rewrite map_app. apply sumR_app. Qed.

Lemma dev_squares_nonneg (m : R) (l : list Z) : 0 <= dev_squares m l.
Proof.
  apply sumR_nonneg. intros x Hx. apply in_map_iff in Hx.
  destruct Hx as (z & <- & _). apply Rle_0_sqr.
Qed.

Lemma dev_sum_total (m : R) (l : list Z) :
  dev_sum m l = IZR (Num.sumZ l) - IZR (Num.count l) * m.
Proof.
  unfold dev_sum, Num.count. induction l as [|x t IH]; cbn [map List.length].
  - unfold Den.sumR, Num.sumZ. simpl. ring.
  - rewrite sumR_cons, IH, Nat2Z.inj_succ, succ_IZR. unfold Num.sumZ. cbn [fold_right].
    rewrite plus_IZR. ring.
Qed.

(** The square of a sum is at most the length times the sum of squares. *)
Lemma dev_sum_square (m : R) (l : list Z) :
  dev_sum m l * dev_sum m l <= IZR (Num.count l) * dev_squares m l.
Proof.
  unfold dev_sum, dev_squares, Num.count. induction l as [|x t IH]; cbn [map List.length].
  - unfold Den.sumR. simpl. lra.
  - rewrite !sumR_cons, Nat2Z.inj_succ, succ_IZR.
    set (s := Den.sumR (map (fun x => IZR x - m) t)) in *.
    set (q := Den.sumR (map (fun x => (IZR x - m) * (IZR x - m)) t)) in *.
    set (k := IZR (Z.of_nat (List.length t))) in *.
    set (e := IZR x - m).
    assert (Hk : 0 <= k) by (unfold k; apply IZR_le; lia).
    assert (Hq : 0 <= q).
    { unfold q. apply sumR_nonneg. intros y Hy. apply in_map_iff in Hy.
      destruct Hy as (z & <- & _). apply Rle_0_sqr. }
    destruct (Req_dec k 0) as [Hk0 | Hk0].
    + assert (Hs : s * s <= 0) by (rewrite Hk0 in IH; lra).
      assert (Hs0 : s = 0) by nra. rewrite Hs0, Hk0. nra.
    + assert (Hkp : 0 < k) by lra.
      assert (H1 : 0 <= (k * e - s) * (k * e - s)) by apply Rle_0_sqr.
      assert (H2 : 2 * k * e * s <= k * k * e * e + k * q) by nra.
      assert (H3 : 2 * e * s <= k * e * e + q).
      { apply (Rmult_le_reg_l k); [exact Hkp|]. nra. }
      nra.
Qed.

Lemma dev_single (m : R) (q : Z) (l : list Z) :
  dev_sum m (q :: l) = (IZR q - m) + dev_sum m l /\
  dev_squares m (q :: l) = (IZR q - m) * (IZR q - m) + dev_squares m l.
Proof. split; reflexivity. Qed.

Lemma deviation_bound_split (m : R) (l1 l2 : list Z) (q : Z) :
  dev_sum m (l1 ++ q :: l2) = 0 ->
  (IZR (Num.count (l1 ++ l2)) + 1) * ((IZR q - m) * (IZR q - m))
  <= IZR (Num.count (l1 ++ l2)) * dev_squares m (l1 ++ q :: l2).
Proof.
  intros Hzero.
  destruct (dev_single m q l2) as [E1 E2].
  rewrite dev_sum_app, E1 in Hzero. rewrite dev_squares_app, E2.
  pose proof (dev_sum_square m (l1 ++ l2)) as Hcs.
  rewrite dev_sum_app, dev_squares_app in Hcs.
  pose proof (dev_squares_nonneg m l1) as H1.
  pose proof (dev_squares_nonneg m l2) as H2.
  set (k := IZR (Num.count (l1 ++ l2))) in *.
  set (d := IZR q - m) in *.
  assert (Hk : 0 <= k) by (unfold k, Num.count; apply IZR_le; lia).
  assert (Hd : dev_sum m l1 + dev_sum m l2 = - d) by lra.
  rewrite Hd in Hcs. nra.
Qed.

(** No point of a series lies further from the mean than the other points
    allow: n d² <= (n - 1) SS. *)
Lemma deviation_bound (qs : list Z) (q : Z) :
  In q qs ->
  IZR (Num.count qs) * ((IZR q - Den.meanR qs) * (IZR q - Den.meanR qs))
  <= (IZR (Num.count qs) - 1) * Den.sq_dev qs.
Proof.
  intros Hin. destruct (in_split _ _ Hin) as (l1 & l2 & E).
  assert (Hn : (0 < Num.count qs)%Z) by (apply count_pos; intros ->; destruct Hin).
  assert (Hzero : dev_sum (Den.meanR qs) qs = 0).
  { rewrite dev_sum_total. unfold Den.meanR. field. apply not_0_IZR. lia. }
  assert (Hcount : IZR (Num.count qs) = IZR (Num.count (l1 ++ l2)) + 1).
  { rewrite E. unfold Num.count. rewrite !length_app. cbn [List.length].
    rewrite <- plus_IZR. f_equal. lia. }
  change (Den.sq_dev qs) with (dev_squares (Den.meanR qs) qs).
  generalize dependent (Den.meanR qs). intros m Hzero.
  rewrite Hcount. subst qs.
  replace (IZR (Num.count (l1 ++ l2)) + 1 - 1) with (IZR (Num.count (l1 ++ l2))) by ring.
  apply deviation_bound_split, Hzero.
Qed.
End ZBound.

Lemma z_square_bound (qs : list Z) (q : Z) :
  In q qs -> (Den.zR qs q * Den.zR qs q <= IZR (Num.count qs) - 1)%R.
Proof.
  intros Hin.
  assert (Hn : 0 < Num.count qs) by (apply count_pos; intros ->; destruct Hin).
  assert (HnR : (1 <= IZR (Num.count qs))%R) by (apply IZR_le; lia).
  unfold Den.zR. destruct (Req_dec_T (Den.pstdR qs) 0) as [_ | Hs]; [lra|].
  pose proof (deviation_bound qs q Hin) as Hb.
  pose proof (sq_dev_nonneg qs) as Hss.
  set (n := IZR (Num.count qs)) in *.
  set (d := (IZR q - Den.meanR qs)%R) in *.
  assert (Hv : (0 <= Den.sq_dev qs / n)%R).
  { apply Rmult_le_pos; [exact Hss|]. apply Rlt_le, Rinv_0_lt_compat. lra. }
  assert (Hsq : (Den.pstdR qs * Den.pstdR qs = Den.sq_dev qs / n)%R).
  { unfold Den.pstdR. fold n. apply sqrt_sqrt, Hv. }
  assert (Hpos : (0 < Den.sq_dev qs)%R).
  { destruct (Rle_lt_or_eq_dec _ _ Hss) as [H | H]; [exact H|].
    exfalso. apply Hs. unfold Den.pstdR. fold n. rewrite <- H.
    unfold Rdiv. rewrite Rmult_0_l. apply sqrt_0. }
  replace (d / Den.pstdR qs * (d / Den.pstdR qs))%R
    with (d * d / (Den.pstdR qs * Den.pstdR qs))%R by (field; exact Hs).
  rewrite Hsq.
  replace (d * d / (Den.sq_dev qs / n))%R with (n * (d * d) / Den.sq_dev qs)%R
    by (field; split; lra).
  apply (Rmult_le_reg_r (Den.sq_dev qs)); [exact Hpos|].
  replace (n * (d * d) / Den.sq_dev qs * Den.sq_dev qs)%R with (n * (d * d))%R
    by (field; lra).
  exact Hb.
Qed.

(** A point with |z| > 3 needs at least eleven points in its series. *)
Lemma flagged_needs_eleven (qs : list Z) (q : Z) :
  In q qs -> (Rabs (Den.zR qs q) > 3)%R -> (11 <= List.length qs)%nat.
Proof.
  intros Hin Hz. pose proof (z_square_bound qs q Hin) as Hb.
  assert (Hsq : (9 < Den.zR qs q * Den.zR qs q)%R).
  { unfold Rabs in Hz. destruct (Rcase_abs (Den.zR qs q)); nra. }
  assert (H : (10 < IZR (Num.count qs))%R) by lra.
  apply lt_IZR in H. unfold Num.count in H. lia.
Qed.

Lemma emitted_In (now : nat -> Z) (rows : list SaleRecord) (zs : list Num.zscore)
    (idxs : list nat) (t : nat) (a : Salesforcast.Anomaly) :
  In a (emitted now rows zs t idxs) ->
  exists i row,
    In i idxs /\ nth_error rows i = Some row /\
    Salesforcast.a_product_id a = dynamic_product_id row /\
    Salesforcast.a_store_id a = store_id row /\
    Salesforcast.a_quantity a = quantity row /\
    Salesforcast.a_sold_at a = sold_at row.
Proof.
  revert t. induction idxs as [|i rest IH]; intros t; simpl; [intros []|].
  destruct (nth_error rows i) as [row|] eqn:Hr.
  - destruct (nth_error zs i) as [z|].
    + intros [<- | H].
      * exists i, row. simpl. auto 10.
      * destruct (IH _ H) as (j & row' & Hj & Hrest). exists j, row'. auto.
    + intros H. destruct (IH _ H) as (j & row' & Hj & Hrest). exists j, row'. auto.
  - intros H. destruct (IH _ H) as (j & row' & Hj & Hrest). exists j, row'. auto.
Qed.

Lemma detect_series_sound (now : nat -> Z) (rows : list SaleRecord)
    (acc : list Salesforcast.Anomaly) (t : nat) (a : Salesforcast.Anomaly) :
  In a (fst (Salesforcast.detect_series now rows (acc, t))) ->
  In a acc \/
  ((11 <= List.length rows)%nat /\
   exists row, In row rows /\
     Salesforcast.a_product_id a = dynamic_product_id row /\
     Salesforcast.a_store_id a = store_id row /\
     Salesforcast.a_quantity a = quantity row /\
     Salesforcast.a_sold_at a = sold_at row).
Proof.
  unfold Salesforcast.detect_series.
  destruct (List.length (map quantity rows) <? 3)%nat eqn:Hlen; [left; assumption|].
  rewrite emit_anomaly_fold, in_app_iff. intros [H | H]; [left; exact H | right].
  destruct (emitted_In _ _ _ _ _ _ H) as (i & row & Hi & Hr & Hfields).
  apply flagged_position in Hi. destruct Hi as (row' & Hr' & Hflag).
  rewrite Hr in Hr'. injection Hr' as <-.
  assert (Hne : map quantity rows <> []).
  { apply Nat.ltb_ge in Hlen. destruct rows; [simpl in Hlen; lia | discriminate]. }
  apply (z_of_spec _ (quantity row) Hne) in Hflag.
  assert (Hin : In row rows) by (eapply nth_error_In; exact Hr).
  split.
  - rewrite <- (length_map quantity). apply (flagged_needs_eleven _ (quantity row)).
    + apply in_map, Hin.
    + exact Hflag.
  - exists row. split; [exact Hin | exact Hfields].
Qed.





(** ** The density detector on one pair *)

Lemma density_emit_fold (db : Db) (now : nat -> Z) (rows : list SaleRecord) (pr : Z * Z)
    (idxs : list nat) (acc : list Recommendations.Anomaly) (t : nat) :
  fst (fold_left (Recommendations.emit_anomaly db now rows pr) idxs (acc, t)) =
  acc ++ density_emitted db now rows pr t idxs.
Proof.
  revert acc t. induction idxs as [|i rest IH]; intros acc t; simpl.
  - rewrite app_nil_r. reflexivity.
  - destruct (nth_error rows i) as [row|]; [|apply IH].
    rewrite IH, <- app_assoc. reflexivity.
Qed.

Lemma density_emitted_nth (db : Db) (now : nat -> Z) (rows : list SaleRecord) (pr : Z * Z)
    (idxs : list nat) (t k i : nat) :
  (forall j, In j idxs -> (j < List.length rows)%nat) ->
  nth_error idxs k = Some i ->
  exists row,
    nth_error rows i = Some row /\
    nth_error (density_emitted db now rows pr t idxs) k =
    Some (Recommendations.mkAnomaly (dynamic_product_id row) (store_id row) (quantity row)
            (sold_at row)
            (if Recommendations.above_mean (quantity row) (Num.mean (map quantity rows))
             then High else Low)
            (product_name_of db (fst pr)) (shop_name_of db (snd pr)) (now (t + k)%nat)).
Proof.
  revert t k. induction idxs as [|j rest IH]; intros t k Hall Hk.
  - destruct k; discriminate.
  - assert (Hj : (j < List.length rows)%nat) by (apply Hall; left; reflexivity).
    destruct (nth_error rows j) as [row|] eqn:Hr;
      [|apply nth_error_None in Hr; lia].
    simpl. rewrite Hr. destruct k as [|k]; simpl in Hk.
    + injection Hk as <-. exists row. rewrite Nat.add_0_r. auto.
    + destruct (IH (S t) k) as (row' & Hr' & He); [|exact Hk|].
      { intros j' Hj'. apply Hall. right. exact Hj'. }
      exists row'. simpl. rewrite He.
      replace (S t + k)%nat with (t + S k)%nat by lia. auto.
Qed.

Lemma density_emitted_length (db : Db) (now : nat -> Z) (rows : list SaleRecord) (pr : Z * Z)
    (idxs : list nat) (t : nat) :
  (forall j, In j idxs -> (j < List.length rows)%nat) ->
  List.length (density_emitted db now rows pr t idxs) = List.length idxs.
Proof.
  revert t. induction idxs as [|j rest IH]; intros t Hall; simpl; [reflexivity|].
  assert (Hj : (j < List.length rows)%nat) by (apply Hall; left; reflexivity).
  destruct (nth_error rows j) as [row|] eqn:Hr; [|apply nth_error_None in Hr; lia].
  simpl. f_equal. apply IH. intros j' Hj'. apply Hall. right. exact Hj'.
Qed.

Lemma outlier_rows_In (labels : list Z) (i : nat) :
  In i (Recommendations.outlier_rows labels) <-> nth_error labels i = Some (-1).
Proof.
  change (Recommendations.outlier_rows labels)
    with (picked_from (fun l => l =? -1) 0 labels).
  rewrite picked_from_In, Nat.sub_0_r. split.
  - intros [_ (x & Hx & Hp)]. apply Z.eqb_eq in Hp. subst x. exact Hx.
  - intros H. split; [lia|]. exists (-1). auto.
Qed.

Lemma above_mean_R (qs : list Z) (q : Z) :
  qs <> [] ->
  (Recommendations.above_mean q (Num.mean qs) = true <-> (IZR q > Den.meanR qs)%R).
Proof.
  intros Hne. destruct (mean_some qs Hne) as (m & Hm & HmR). rewrite Hm. simpl.
  rewrite Qltb_R, Q2R_inject_Z, HmR. split; intros H; lra.
Qed.

Ltac nothing_found contradiction_tac :=
  exists [], []; simpl; rewrite app_nil_r;
  split; [reflexivity|]; split; [constructor|]; split; [reflexivity|]; split;
  [ intros i; split; [intros [] | contradiction_tac]
  | intros k i H; destruct k; discriminate ].


(** ** The three lists of the pattern analyzer *)


(** ** The store filter that parses to zero *)



(** ** The forecasts of a run *)

Lemma max0_nonneg (x : Q) : (0 <= Num.max0 x)%Q.
Proof.
  unfold Num.max0. destruct (Num.Qltb 0 x) eqn:E.
  - apply Qltb_iff in E. apply Qlt_le_weak, E.
  - apply Qle_refl.
Qed.

Lemma round2_nonneg (x : Q) : (0 <= x)%Q -> (0 <= Num.round2 x)%Q.
Proof.
  intros Hx. unfold Num.round2.
  assert (Hs : (0 <= x * 100)%Q) by (apply Qmult_le_0_compat; [exact Hx | discriminate]).
  assert (Hf : 0 <= Qfloor (x * 100)).
  { change 0 with (Qfloor 0). apply Qfloor_resp_le, Hs. }
  set (f := Qfloor (x * 100)) in *.
  destruct (Num.Qltb _ (1 # 2)); [unfold Qle; simpl; lia|].
  destruct (Num.Qltb (1 # 2) _); [unfold Qle; simpl; lia|].
  destruct (Z.even f); unfold Qle; simpl; lia.
Qed.

Lemma forecast_pair_step (db : Db) (now : nat -> Z) (monthly_sales : list MonthlyBucket)
    (acc : list Salesforcast.Forecast) (t : nat) (pr : Z * Z) :
  exists new,
    fst (Salesforcast.forecast_pair db now monthly_sales (acc, t) pr) = acc ++ new /\
    map forecast_pair_of new = (if has_two_months monthly_sales pr then [pr] else []) /\
    forall f, In f new ->
      (0 <= Salesforcast.predicted_demand f)%Q /\
      (Salesforcast.recommendation f = "Restock recommended"%string \/
       Salesforcast.recommendation f = "No restock needed"%string).
Proof.
  unfold Salesforcast.forecast_pair, has_two_months, Frame.sort_by_month.
  rewrite sort_length.
  destruct (List.length (Frame.rows_of_pair pr monthly_sales) <? 2)%nat eqn:E.
  - apply Nat.ltb_lt in E.
    destruct (2 <=? List.length (Frame.rows_of_pair pr monthly_sales))%nat eqn:E2;
      [apply Nat.leb_le in E2; lia|].
    exists []. simpl. rewrite app_nil_r. split; [reflexivity|]. split; [reflexivity|].
    intros f [].
  - apply Nat.ltb_ge in E.
    destruct (2 <=? List.length (Frame.rows_of_pair pr monthly_sales))%nat eqn:E2;
      [|apply Nat.leb_gt in E2; lia].
    eexists [_]. split; [reflexivity|]. split; [destruct pr; reflexivity|].
    intros f [<- | []]. simpl. split.
    + apply round2_nonneg, max0_nonneg.
    + destruct (Num.Qltb _ _); auto.
Qed.

Lemma forecast_fold (db : Db) (now : nat -> Z) (monthly_sales : list MonthlyBucket)
    (pairs : list (Z * Z)) (st : list Salesforcast.Forecast * nat) :
  exists new,
    fst (fold_left (Salesforcast.forecast_pair db now monthly_sales) pairs st)
    = fst st ++ new /\
    map forecast_pair_of new = filter (has_two_months monthly_sales) pairs /\
    forall f, In f new ->
      (0 <= Salesforcast.predicted_demand f)%Q /\
      (Salesforcast.recommendation f = "Restock recommended"%string \/
       Salesforcast.recommendation f = "No restock needed"%string).
Proof.
  revert st. induction pairs as [|pr rest IH]; intros st.
  - exists []. simpl. rewrite app_nil_r. split; [reflexivity|]. split; [reflexivity|].
    intros f [].
  - cbn [fold_left filter]. destruct st as [acc t].
    destruct (forecast_pair_step db now monthly_sales acc t pr) as (n1 & E1 & M1 & P1).
    destruct (IH (Salesforcast.forecast_pair db now monthly_sales (acc, t) pr))
      as (n2 & E2 & M2 & P2).
    exists (n1 ++ n2). rewrite E2, E1, <- app_assoc. split; [reflexivity|]. split.
    + rewrite map_app, M1, M2. destruct (has_two_months monthly_sales pr); reflexivity.
    + intros f Hf. apply in_app_or in Hf. destruct Hf; [apply P1 | apply P2]; assumption.
Qed.

(** X10. A run of the forecaster returns exactly one forecast for every
    pair with at least two monthly buckets, in the order in which the pairs
    first appear in the monthly aggregation, and none for the other pairs;
    the demand of a forecast is never negative and its recommendation is one
    of the two verdicts. *)
Theorem forecast_one_per_pair (db : Db) (now : nat -> Z) (sales : list SaleRecord) :
  map forecast_pair_of (Salesforcast.forecast_sales db now sales)
  = filter (has_two_months (Frame.groupby_sum sales))
      (Frame.drop_duplicates pair_eqb (map bucket_pair (Frame.groupby_sum sales))) /\
  NoDup (map forecast_pair_of (Salesforcast.forecast_sales db now sales)) /\
  (forall f, In f (Salesforcast.forecast_sales db now sales) ->
     (0 <= Salesforcast.predicted_demand f)%Q /\
     (Salesforcast.recommendation f = "Restock recommended"%string \/
      Salesforcast.recommendation f = "No restock needed"%string)).
Proof.
  unfold Salesforcast.forecast_sales.
  destruct (forecast_fold db now (Frame.groupby_sum sales)
              (Frame.drop_duplicates pair_eqb (map bucket_pair (Frame.groupby_sum sales)))
              ([], 0%nat)) as (new & E & M & P).
  simpl in E. rewrite E. split; [exact M|]. split; [|exact P].
  rewrite M. apply NoDup_filter, (drop_duplicates_NoDup pair_eqb pair_eqb_eq).
Qed.

(** ** Answers to inquiries *)

Lemma first_response_fallback (table : list (string * string)) (tokens : list string) :
  (forall k, In k (map fst table) -> ~ In k tokens) ->
  CustomerInquiries.first_response table tokens = CustomerInquiries.fallback.
Proof.
  induction table as [|[k r] rest IH]; intros H; simpl; [reflexivity|].
  destruct (existsb (String.eqb k) tokens) eqn:E.
  - apply existsb_exists in E. destruct E as (x & Hx & Ex). apply String.eqb_eq in Ex.
    subst x. exfalso. apply (H k); [left; reflexivity | exact Hx].
  - apply IH. intros k' Hk'. apply H. right. exact Hk'.
Qed.

Lemma first_response_hit (before after : list (string * string)) (k r : string)
    (tokens : list string) :
  In k tokens ->
  (forall k', In k' (map fst before) -> ~ In k' tokens) ->
  CustomerInquiries.first_response (before ++ (k, r) :: after) tokens = r.
Proof.
  intros Hk. induction before as [|[k0 r0] rest IH]; intros H; simpl.
  - assert (E : existsb (String.eqb k) tokens = true).
    { apply existsb_exists. exists k. split; [exact Hk | apply String.eqb_refl]. }
    rewrite E. reflexivity.
  - destruct (existsb (String.eqb k0) tokens) eqn:E.
    + apply existsb_exists in E. destruct E as (x & Hx & Ex). apply String.eqb_eq in Ex.
      subst x. exfalso. apply (H k0); [left; reflexivity | exact Hx].
    + apply IH. intros k' Hk'. apply H. right. exact Hk'.
Qed.

(** X11. [process_inquiry] answers with the response of the first keyword of
    its table, in the order stock, availability, order, delivery, price,
    that occurs among the tokens of the lowered text, whatever other
    keywords occur, and with the fall-back answer when none does. *)
Theorem process_inquiry_first_keyword (lowered_tokens : string -> list string)
    (inquiry_text : string) :
  (forall before after k r,
     CustomerInquiries.responses = before ++ (k, r) :: after ->
     In k (lowered_tokens inquiry_text) ->
     (forall k', In k' (map fst before) -> ~ In k' (lowered_tokens inquiry_text)) ->
     CustomerInquiries.process_inquiry lowered_tokens inquiry_text = r) /\
  ((forall k, In k (map fst CustomerInquiries.responses) ->
              ~ In k (lowered_tokens inquiry_text)) ->
   CustomerInquiries.process_inquiry lowered_tokens inquiry_text
   = CustomerInquiries.fallback) /\
  (CustomerInquiries.process_inquiry lowered_tokens inquiry_text
   = CustomerInquiries.fallback ->
   forall k, In k (map fst CustomerInquiries.responses) ->
             ~ In k (lowered_tokens inquiry_text)).
Proof.
  unfold CustomerInquiries.process_inquiry. split; [|split].
  - intros before after k r E Hk Hb. rewrite E. apply first_response_hit; assumption.
  - apply first_response_fallback.
  - intros H k Hk Hin.
    assert (E : existsb (String.eqb k) (lowered_tokens inquiry_text) = true).
    { apply existsb_exists. exists k. split; [exact Hin | apply String.eqb_refl]. }
    unfold CustomerInquiries.responses, CustomerInquiries.first_response in H.
    simpl in Hk.
    destruct (existsb (String.eqb "stock") (lowered_tokens inquiry_text)) eqn:E1;
      [discriminate H|].
    destruct (existsb (String.eqb "availability") (lowered_tokens inquiry_text)) eqn:E2;
      [discriminate H|].
    destruct (existsb (String.eqb "order") (lowered_tokens inquiry_text)) eqn:E3;
      [discriminate H|].
    destruct (existsb (String.eqb "delivery") (lowered_tokens inquiry_text)) eqn:E4;
      [discriminate H|].
    destruct (existsb (String.eqb "price") (lowered_tokens inquiry_text)) eqn:E5;
      [discriminate H|].
    destruct Hk as [<- | [<- | [<- | [<- | [<- | []]]]]]; congruence.
Qed.

(** ** The anomalies of a run of the density detector *)

Lemma density_emitted_In (db : Db) (now : nat -> Z) (rows : list SaleRecord) (pr : Z * Z)
    (idxs : list nat) (t : nat) (a : Recommendations.Anomaly) :
  In a (density_emitted db now rows pr t idxs) ->
  exists row,
    In row rows /\
    Recommendations.a_product_id a = dynamic_product_id row /\
    Recommendations.a_store_id a = store_id row /\
    Recommendations.a_quantity a = quantity row /\
    Recommendations.a_sold_at a = sold_at row /\
    Recommendations.a_product_name a = product_name_of db (fst pr) /\
    Recommendations.a_shop_name a = shop_name_of db (snd pr).
Proof.
  revert t. induction idxs as [|i rest IH]; intros t; simpl; [intros []|].
  destruct (nth_error rows i) as [row|] eqn:Hr; [|apply IH].
  intros [<- | H]; [|apply (IH _ H)].
  exists row. simpl. split; [eapply nth_error_In; exact Hr | auto 10].
Qed.

(** X12. Every anomaly the density detector returns repeats a sale of the
    input, carries the display names of the product and the store of that
    sale, and belongs to a pair with at least 3 and at most 500 sales. *)
Theorem density_anomalies_are_sales (db : Db) (now : nat -> Z)
    (fit_predict : list Z -> result (list Z)) (sales : list SaleRecord)
    (a : Recommendations.Anomaly) :
  In a (Recommendations.detect_sales db now fit_predict sales) ->
  exists r,
    In r sales /\
    Recommendations.a_product_id a = dynamic_product_id r /\
    Recommendations.a_store_id a = store_id r /\
    Recommendations.a_quantity a = quantity r /\
    Recommendations.a_sold_at a = sold_at r /\
    Recommendations.a_product_name a = product_name_of db (dynamic_product_id r) /\
    Recommendations.a_shop_name a = shop_name_of db (store_id r) /\
    (3 <= List.length (Frame.sales_of_pair (sale_pair r) sales) <= 500)%nat.
Proof.
  assert (H : forall pairs st,
             In a (fst (fold_left (Recommendations.detect_pair db now fit_predict sales)
                          pairs st)) ->
             In a (fst st) \/
             exists r,
               In r sales /\
               Recommendations.a_product_id a = dynamic_product_id r /\
               Recommendations.a_store_id a = store_id r /\
               Recommendations.a_quantity a = quantity r /\
               Recommendations.a_sold_at a = sold_at r /\
               Recommendations.a_product_name a = product_name_of db (dynamic_product_id r) /\
               Recommendations.a_shop_name a = shop_name_of db (store_id r) /\
               (3 <= List.length (Frame.sales_of_pair (sale_pair r) sales) <= 500)%nat).
  { induction pairs as [|pr rest IH]; intros st Hin; [left; exact Hin|].
    cbn [fold_left] in Hin. destruct (IH _ Hin) as [Hst | Hr]; [|right; exact Hr].
    destruct st as [acc t]. unfold Recommendations.detect_pair in Hst.
    destruct (List.length (Frame.sales_of_pair pr sales) <? 3)%nat eqn:E3;
      [left; exact Hst|].
    destruct (500 <? List.length (Frame.sales_of_pair pr sales))%nat eqn:E5;
      [left; exact Hst|].
    destruct (fit_predict _) as [labels|]; [|left; exact Hst].
    destruct (negb _); [left; exact Hst|].
    rewrite density_emit_fold, in_app_iff in Hst.
    destruct Hst as [Hacc | Hnew]; [left; exact Hacc | right].
    destruct (density_emitted_In _ _ _ _ _ _ _ Hnew)
      as (row & Hrow & F1 & F2 & F3 & F4 & F5 & F6).
    unfold Frame.sales_of_pair in Hrow. apply filter_In in Hrow.
    destruct Hrow as [Hrow Hpr]. apply pair_eqb_eq in Hpr.
    apply Nat.ltb_ge in E3, E5.
    exists row. rewrite Hpr. rewrite <- Hpr in F5, F6. simpl in F5, F6.
    repeat split; assumption. }
  unfold Recommendations.detect_sales. destruct sales as [|s0 rest]; [intros []|].
  intros Hin. destruct (H _ _ Hin) as [[] | Hr]. exact Hr.
Qed.

Lemma density_anomalies_are_sales_witness :
  exists r,
    In r outlier_sales /\
    1 = dynamic_product_id r /\ 1 = store_id r /\ 1000 = quantity r /\ 0 = sold_at r /\
    "Product ID: 1"%string = product_name_of empty_store (dynamic_product_id r) /\
    "Store ID: 1"%string = shop_name_of empty_store (store_id r) /\
    (3 <= List.length (Frame.sales_of_pair (sale_pair r) outlier_sales) <= 500)%nat.
Proof.
  apply (density_anomalies_are_sales empty_store (fun _ => 0)
           (fun qs => Ok (map (fun q => if 100 <? q then -1 else 1) qs)) outlier_sales
           (Recommendations.mkAnomaly 1 1 1000 0 High "Product ID: 1" "Store ID: 1" 0)).
  vm_compute. left. reflexivity.
Defined.
